(** * MT5 multi-symbol checklist monitor: the signal evaluation engine

    A shallow embedding of [Bot.py].  Python floats are IEEE binary64
    numbers, modelled by Rocq's primitive floats; Python ints are [Z];
    numpy arrays and pandas columns are [list float], where the absent
    value of a series is [nan].  A Python exception is the [Raise] case of
    [result].  Library routines whose numerics live outside the repository
    (numpy's logarithm, the [ta] indicators, pandas' weighted means) are the
    fields of the class [Lib]. *)

From Stdlib Require Import ZArith Bool Lia String.
From Stdlib Require Import Floats.
From stdpp Require Import base list gmap.

Set Warnings "-inexact-float".
Set Default Proof Using "Type".

Open Scope Z_scope.

(** ** Exceptions *)

Inductive exn : Type :=
| ValueError
| IndexError.

Inductive result (A : Type) : Type :=
| Ok (a : A)
| Raise (e : exn).
Arguments Ok {A} a.
Arguments Raise {A} e.

Definition rbind {A B} (m : result A) (k : A -> result B) : result B :=
  match m with
  | Ok a => k a
  | Raise e => Raise e
  end.

Notation "'let*' x ':=' m 'in' k" := (rbind m (fun x => k))
  (at level 10, x name, m at level 100, k at level 200, only parsing).

(** ** Python sequences *)

(** Index normalisation of a slice bound, for a sequence of length [n]. *)
Definition slice_bound (n k : Z) : Z :=
  if k <? 0 then Z.max 0 (k + n) else Z.min k n.

(** [l[start:stop]] *)
Definition py_slice {A} (l : list A) (start stop : Z) : list A :=
  let n := Z.of_nat (length l) in
  let a := slice_bound n start in
  let b := slice_bound n stop in
  take (Z.to_nat (b - a)) (drop (Z.to_nat a) l).

(** [l[k]] for an int [k], negative indices counting from the end. *)
Definition py_index {A} (l : list A) (k : Z) : result A :=
  let n := Z.of_nat (length l) in
  let j := if k <? 0 then k + n else k in
  if (j <? 0) || (n <=? j) then Raise IndexError
  else match l !! Z.to_nat j with
       | Some x => Ok x
       | None => Raise IndexError
       end.

(** ** numpy and pandas reductions *)

Module np.

Definition fmax (a b : float) : float := if (a <? b)%float then b else a.
Definition fmin (a b : float) : float := if (b <? a)%float then b else a.

(** Reduction of a non-empty array: [nan] as soon as one entry is. *)
Definition reduce (op : float -> float -> float) (x : float) (xs : list float)
  : float :=
  if existsb PrimFloat.is_nan (x :: xs) then nan else foldl op x xs.

(** [np.max]: a ValueError on an empty array. *)
Definition max (w : list float) : result float :=
  match w with
  | [] => Raise ValueError
  | x :: xs => Ok (reduce fmax x xs)
  end.

Definition min (w : list float) : result float :=
  match w with
  | [] => Raise ValueError
  | x :: xs => Ok (reduce fmin x xs)
  end.

(** [np.clip x lo hi], which lets [nan] through. *)
Definition clip (x lo hi : float) : float :=
  if PrimFloat.is_nan x then x
  else if (x <? lo)%float then lo
  else if (hi <? x)%float then hi
  else x.

(** [np.isnan(xs).any()] *)
Definition isnan_any (xs : list float) : bool := existsb PrimFloat.is_nan xs.

End np.

Module pd.

(** [Series.max()] and [Series.min()] skip the absent entries; the result
    is absent when nothing is left. *)
Definition dropna (s : list float) : list float :=
  filter (fun x => PrimFloat.is_nan x = false) s.

Definition max (s : list float) : float :=
  match dropna s with
  | [] => nan
  | x :: xs => foldl np.fmax x xs
  end.

Definition min (s : list float) : float :=
  match dropna s with
  | [] => nan
  | x :: xs => foldl np.fmin x xs
  end.

End pd.

(** ** Library routines outside the repository *)

Class Lib : Type := {
  (** [np.log] *)
  np_log : float -> float;
  (** [ta.momentum.RSIIndicator(close, window).rsi()] *)
  ta_rsi : list float -> Z -> list float;
  (** [close.ewm(span, adjust=False).mean()] *)
  ewm_mean : list float -> Z -> list float;
  (** mean of one full rolling window *)
  window_mean : list float -> float;
  (** [ta.volatility.BollingerBands(close, window, window_dev)]: the upper
      and the lower band *)
  bollinger_hband : list float -> Z -> Z -> list float;
  bollinger_lband : list float -> Z -> Z -> list float;
  (** every derived series is aligned with its input *)
  ta_rsi_length : forall c w, length (ta_rsi c w) = length c;
  ewm_mean_length : forall c w, length (ewm_mean c w) = length c;
  bollinger_hband_length : forall c w d, length (bollinger_hband c w d) = length c;
  bollinger_lband_length : forall c w d, length (bollinger_lband c w d) = length c;
}.

(** ** Configuration *)

Definition H1_LOOKBACK : Z := 120.
Definition FISHER_PERIOD : Z := 10.
Definition RSI_PERIOD : Z := 5.
Definition FISHER_RSI_GAP : float := 0.6%float.
Definition SR_LOOKBACK : Z := 20.
Definition M15_LOOKBACK : Z := 200.
Definition EMA50_M15_PERIOD : Z := 50.
Definition SMA200_PERIOD : Z := 200.
Definition SMA400_PERIOD : Z := 400.
Definition BOLL_WINDOW : Z := 20.
Definition CHECK_INTERVAL : Z := 30.

(** ** Fisher transform *)

Section Fisher.
Context `{Lib}.
Open Scope float_scope.

(** The loop's variables: [prev_val] and the arrays [filt] and [fisher]. *)
Record fisher_state : Type := FisherState {
  prev_val : float;
  filt : list float;
  fisher : list float;
}.

Definition fisher_init (n : nat) : fisher_state :=
  {| prev_val := 0; filt := replicate n 0; fisher := replicate n nan |}.

Definition at_index (a : list float) (i : nat) : float := default nan (a !! i).

(** The value [raw] of iteration [i], clipped, given the carried value. *)
Definition raw_update (price : list float) (period : Z) (prev : float) (i : nat)
  : result float :=
  let window := py_slice price (Z.of_nat i - period + 1) (Z.of_nat i + 1) in
  let* max_h := np.max window in
  let* min_l := np.min window in
  let raw :=
    if max_h - min_l =? 0 then 0
    else 0.33 * 2 * ((at_index price i - min_l) / (max_h - min_l) - 0.5)
         + 0.67 * prev in
  Ok (np.clip raw (-0.999) 0.999).

Definition fisher_value (raw : float) : float :=
  0.5 * np_log ((1 + raw) / (1 - raw)).

(** One iteration of [for i in range(n)]. *)
Definition fisher_step (price : list float) (period : Z)
    (st : fisher_state) (i : nat) : result fisher_state :=
  if (Z.of_nat i <? period)%Z then Ok st
  else
    let* raw := raw_update price period (prev_val st) i in
    let fisher_val := fisher_value raw in
    let fi :=
      if (period <? Z.of_nat i)%Z
      then 0.5 * fisher_val + 0.5 * at_index (filt st) (i - 1)
      else fisher_val in
    Ok {| prev_val := raw;
          filt := <[i := fi]> (filt st);
          fisher := <[i := fi]> (fisher st) |}.

Fixpoint fisher_loop (price : list float) (period : Z)
    (st : fisher_state) (idx : list nat) : result fisher_state :=
  match idx with
  | [] => Ok st
  | i :: rest =>
      let* st' := fisher_step price period st i in
      fisher_loop price period st' rest
  end.

(** The loop's variables once the iterations [0 .. k-1] are done. *)
Definition fisher_after (price : list float) (period : Z) (k : nat)
  : result fisher_state :=
  fisher_loop price period (fisher_init (length price)) (seq 0 k).

Definition fisher_transform (price : list float) (period : Z)
  : result (list float) :=
  let* st := fisher_after price period (length price) in
  Ok (fisher st).

End Fisher.

(** ** Bars and frames *)

(** One row of the rates table; the frame's index is [time], in seconds
    since the epoch. *)
Record bar : Type := Bar {
  time : Z;
  open : float;
  high : float;
  low : float;
  close : float;
}.

Inductive timeframe : Type :=
| TIMEFRAME_M1
| TIMEFRAME_M5
| TIMEFRAME_M15
| TIMEFRAME_H1
| TIMEFRAME_D1
| TIMEFRAME_other.

Definition minutes_per_bar (tf : timeframe) : Z :=
  match tf with
  | TIMEFRAME_M1 => 1
  | TIMEFRAME_M5 => 5
  | TIMEFRAME_M15 => 15
  | TIMEFRAME_H1 => 60
  | TIMEFRAME_D1 => 1440
  | TIMEFRAME_other => 60
  end.

(** The range [utc_from, utc_to] that [fetch_ohlc] asks the terminal for,
    when the clock reads [utc_to]. *)
Definition fetch_range (tf : timeframe) (n : Z) (utc_to : Z) : Z * Z :=
  (utc_to - n * minutes_per_bar tf * 60, utc_to).

(** What the terminal can answer to [copy_rates_range]: bars of the
    timeframe, oldest first, one per period at most, all opened inside the
    range. *)
Fixpoint spaced (d : Z) (ts : list Z) : Prop :=
  match ts with
  | t1 :: ((t2 :: _) as rest) => t1 + d <= t2 /\ spaced d rest
  | _ => True
  end.

Definition range_answer (tf : timeframe) (n : Z) (rates : list bar) : Prop :=
  exists utc_to,
    spaced (minutes_per_bar tf * 60) (map time rates) /\
    Forall (fun b => fst (fetch_range tf n utc_to) <= time b <= utc_to) rates.

(** [fetch_ohlc], given the terminal's answer. *)
Definition fetch_ohlc (rates : option (list bar)) : option (list bar) :=
  match rates with
  | None => None
  | Some r => if (Z.of_nat (length r) =? 0) then None else Some r
  end.

(** [Timestamp.hour] *)
Definition hour_of (t : Z) : Z := (t / 3600) mod 24.

(** ** Minor support / resistance breach *)

Inductive sr_kind : Type :=
| resistance
| support.

Definition small_pct : float := 0.0005%float.

Definition detect_minor_sr_breach (df_h1 : list bar) (lookback : Z)
  : result (option sr_kind * option float * float) :=
  if Z.of_nat (length df_h1) <? lookback + 2 then Ok (None, None, 0%float)
  else
    let recent := py_slice df_h1 (- lookback - 1) (-1) in
    let prev_high := pd.max (map high recent) in
    let prev_low := pd.min (map low recent) in
    let* last := py_index df_h1 (-1) in
    if (prev_high * (1 + small_pct) <? high last)%float
    then Ok (Some resistance, Some prev_high, (high last - prev_high)%float)
    else if (low last <? prev_low * (1 - small_pct))%float
    then Ok (Some support, Some prev_low, (prev_low - low last)%float)
    else Ok (None, None, 0%float).

(** ** Indicator frames *)

Section Indicators.
Context `{Lib}.

(** [Series.rolling(window).mean()]: absent until the window is full. *)
Definition rolling_mean (s : list float) (window : Z) : list float :=
  imap (fun i _ =>
          if Z.of_nat i + 1 <? window then nan
          else window_mean
                 (py_slice s (Z.of_nat i + 1 - window) (Z.of_nat i + 1)))
       s.

Record h1_frame : Type := H1Frame {
  h1_bars : list bar;
  rsi : list float;
  fisher_col : list float;
}.

Definition compute_h1_indicators (df_h1 : list bar) : result h1_frame :=
  let c := map close df_h1 in
  let r := ta_rsi c RSI_PERIOD in
  let* f := fisher_transform c FISHER_PERIOD in
  Ok {| h1_bars := df_h1; rsi := r; fisher_col := f |}.

Record m15_frame : Type := M15Frame {
  m15_bars : list bar;
  ema50 : list float;
  sma200 : list float;
  sma400 : list float;
  bb_h : list float;
  bb_l : list float;
}.

Definition compute_m15_indicators (df_m15 : list bar) : m15_frame :=
  let c := map close df_m15 in
  {| m15_bars := df_m15;
     ema50 := ewm_mean c EMA50_M15_PERIOD;
     sma200 := rolling_mean c SMA200_PERIOD;
     sma400 := rolling_mean c SMA400_PERIOD;
     bb_h := bollinger_hband c BOLL_WINDOW 2;
     bb_l := bollinger_lband c BOLL_WINDOW 2 |}.

End Indicators.

(** ** The checklist monitor *)

(** What a monitor does to its collaborators: a request to the terminal, a
    line of the status log, a notification (a log line and a toast), a pause. *)
Inductive event : Type :=
| EvFetch (sym : string) (tf : timeframe) (n : Z)
| EvLog (msg : string)
| EvNotify (sym title message : string)
| EvSleep (seconds : Z).

(** The fields of a [ChecklistMonitor] that the engine reads or writes;
    [vars] holds the value of each checkbox variable. *)
Record monitor : Type := Monitor {
  symbol : string;
  h1_sr_breached : bool;
  h1_left_fisher : bool;
  h1_last_close_below_50 : bool;
  h1_time_ok : bool;
  m15_retrace_ok : bool;
  vars : gmap nat Z;
}.

(** [__init__] *)
Definition monitor_init (sym : string) : monitor :=
  {| symbol := sym;
     h1_sr_breached := false;
     h1_left_fisher := false;
     h1_last_close_below_50 := false;
     h1_time_ok := false;
     m15_retrace_ok := false;
     vars := list_to_map (map (fun i => (i, 0)) (seq 0 5)) |}.

Definition set_h1_sr_breached (b : bool) (s : monitor) : monitor :=
  {| symbol := symbol s; h1_sr_breached := b;
     h1_left_fisher := h1_left_fisher s;
     h1_last_close_below_50 := h1_last_close_below_50 s;
     h1_time_ok := h1_time_ok s; m15_retrace_ok := m15_retrace_ok s;
     vars := vars s |}.

Definition set_h1_left_fisher (b : bool) (s : monitor) : monitor :=
  {| symbol := symbol s; h1_sr_breached := h1_sr_breached s;
     h1_left_fisher := b;
     h1_last_close_below_50 := h1_last_close_below_50 s;
     h1_time_ok := h1_time_ok s; m15_retrace_ok := m15_retrace_ok s;
     vars := vars s |}.

Definition set_h1_last_close_below_50 (b : bool) (s : monitor) : monitor :=
  {| symbol := symbol s; h1_sr_breached := h1_sr_breached s;
     h1_left_fisher := h1_left_fisher s;
     h1_last_close_below_50 := b;
     h1_time_ok := h1_time_ok s; m15_retrace_ok := m15_retrace_ok s;
     vars := vars s |}.

Definition set_h1_time_ok (b : bool) (s : monitor) : monitor :=
  {| symbol := symbol s; h1_sr_breached := h1_sr_breached s;
     h1_left_fisher := h1_left_fisher s;
     h1_last_close_below_50 := h1_last_close_below_50 s;
     h1_time_ok := b; m15_retrace_ok := m15_retrace_ok s;
     vars := vars s |}.

(** [self.vars[i].set(v)] *)
Definition set_var (i : nat) (v : Z) (s : monitor) : monitor :=
  {| symbol := symbol s; h1_sr_breached := h1_sr_breached s;
     h1_left_fisher := h1_left_fisher s;
     h1_last_close_below_50 := h1_last_close_below_50 s;
     h1_time_ok := h1_time_ok s; m15_retrace_ok := m15_retrace_ok s;
     vars := <[i := v]> (vars s) |}.

(** *** Methods: state, trace and exceptions

    A method runs on the monitor's fields and yields its outcome, the fields
    as it leaves them (also when it raises) and the events it caused. *)

Definition M (A : Type) : Type := monitor -> result A * monitor * list event.

Definition mret {A} (a : A) : M A := fun s => (Ok a, s, []).

Definition mbind {A B} (m : M A) (k : A -> M B) : M B :=
  fun s =>
    match m s with
    | (Ok a, s', tr) =>
        let '(r, s'', tr') := k a s' in (r, s'', tr ++ tr')
    | (Raise e, s', tr) => (Raise e, s', tr)
    end.

Notation "'let!' x ':=' m 'in' k" := (mbind m (fun x => k))
  (at level 10, x name, m at level 100, k at level 200, only parsing).
Notation "m1 ';;!' m2" := (mbind m1 (fun _ => m2))
  (at level 100, m2 at level 200, right associativity, only parsing).

Definition lift {A} (r : result A) : M A := fun s => (r, s, []).
Definition emit (e : event) : M unit := fun s => (Ok tt, s, [e]).
Definition modify (f : monitor -> monitor) : M unit := fun s => (Ok tt, f s, []).
Definition get : M monitor := fun s => (Ok s, s, []).

(** [try: body except Exception as e: handler] *)
Definition try_except {A} (body : M A) (handler : exn -> M A) : M A :=
  fun s =>
    match body s with
    | (Raise e, s', tr) =>
        let '(r, s'', tr') := handler e s' in (r, s'', tr ++ tr')
    | done => done
    end.

Definition exn_message (e : exn) : string :=
  match e with
  | ValueError => "ValueError"
  | IndexError => "IndexError"
  end.

Definition log (msg : string) : M unit := emit (EvLog msg).

Definition notify (title message : string) : M unit :=
  let! s := get in
  emit (EvNotify (symbol s) title message).

Definition bool_to_int (b : bool) : Z := if b then 1 else 0.

Section Monitor.
Context `{Lib}.

(** The three fast-stage conditions on the newest M15 row. *)
Definition sma_side_ok (v_sma200 v_sma400 : float) : bool :=
  (v_sma400 <? v_sma200)%float.
Definition not_out_bands (v_bb_l price v_bb_h : float) : bool :=
  (v_bb_l <? price)%float && (price <? v_bb_h)%float.
Definition touched_ema (price v_ema50 : float) : bool :=
  (abs (price - v_ema50) <=? 0.0004)%float.

(** [monitor_m15], given the terminal's answer to its request. *)
Definition monitor_m15 (answer : option (list bar)) : M unit :=
  let! s := get in
  emit (EvFetch (symbol s) TIMEFRAME_M15 M15_LOOKBACK) ;;!
  match fetch_ohlc answer with
  | None => mret tt
  | Some df_m15 =>
      let m15 := compute_m15_indicators df_m15 in
      let! last := lift (py_index (m15_bars m15) (-1)) in
      let price := close last in
      let! v_ema50 := lift (py_index (ema50 m15) (-1)) in
      let! v_sma200 := lift (py_index (sma200 m15) (-1)) in
      let! v_sma400 := lift (py_index (sma400 m15) (-1)) in
      let! v_bb_h := lift (py_index (bb_h m15) (-1)) in
      let! v_bb_l := lift (py_index (bb_l m15) (-1)) in
      if np.isnan_any [v_ema50; v_sma200; v_sma400; v_bb_h; v_bb_l]
      then mret tt
      else
        if sma_side_ok v_sma200 v_sma400
           && not_out_bands v_bb_l price v_bb_h
           && touched_ema price v_ema50
        then
          modify (set_var 3 1) ;;!
          modify (set_var 4 1) ;;!
          notify "M15" "Retrace confirmed, ALL conditions met!"
        else mret tt
  end.

(** What the terminal answers during one pass of the loop: to the H1
    request, and to the M15 request if the pass makes one. *)
Record answers : Type := Answers {
  h1_answer : option (list bar);
  m15_answer : option (list bar);
}.

Definition time_window (hour : Z) : bool :=
  ((9 <=? hour) && (hour <=? 10)) || ((14 <=? hour) && (hour <=? 17)).

(** The body of the [try] in [monitor_loop]. *)
Definition monitor_body (a : answers) : M unit :=
  let! s := get in
  emit (EvFetch (symbol s) TIMEFRAME_H1 H1_LOOKBACK) ;;!
  match fetch_ohlc (h1_answer a) with
  | None =>
      log "No H1 data yet" ;;!
      emit (EvSleep CHECK_INTERVAL)
  | Some df_h1 =>
      let! hin := lift (compute_h1_indicators df_h1) in
      let! found := lift (detect_minor_sr_breach df_h1 SR_LOOKBACK) in
      let sr_type := fst (fst found) in
      modify (set_h1_sr_breached (bool_decide (sr_type <> None))) ;;!
      let! s := get in
      modify (set_var 0 (bool_to_int (h1_sr_breached s))) ;;!
      let! last_h1 := lift (py_index (h1_bars hin) (-1)) in
      let! last_rsi := lift (py_index (rsi hin) (-1)) in
      let! last_fisher := lift (py_index (fisher_col hin) (-1)) in
      let gap := (last_rsi - last_fisher)%float in
      modify (set_h1_left_fisher (FISHER_RSI_GAP <=? abs gap)%float) ;;!
      let! s := get in
      modify (set_var 1 (bool_to_int (h1_left_fisher s))) ;;!
      modify (set_h1_last_close_below_50 (last_rsi <? 50)%float) ;;!
      let! s := get in
      modify (set_var 2 (bool_to_int (h1_last_close_below_50 s))) ;;!
      let hour := hour_of (time last_h1) in
      modify (set_h1_time_ok (time_window hour)) ;;!
      let! s := get in
      (if h1_sr_breached s && h1_left_fisher s
          && h1_last_close_below_50 s && h1_time_ok s
       then
         notify "H1" "Conditions met, checking M15..." ;;!
         monitor_m15 (m15_answer a)
       else mret tt) ;;!
      emit (EvSleep CHECK_INTERVAL)
  end.

(** One pass of [while True]. *)
Definition monitor_cycle (a : answers) : M unit :=
  try_except (monitor_body a)
    (fun e =>
       log (String.append "Error: " (exn_message e)) ;;!
       emit (EvSleep CHECK_INTERVAL)).

(** The passes of [monitor_loop] over the terminal's successive answers. *)
Fixpoint monitor_loop (ans : list answers) : M unit :=
  match ans with
  | [] => mret tt
  | a :: rest => monitor_cycle a ;;! monitor_loop rest
  end.

End Monitor.

(** ** The transform as a recurrence

    The carried value and the output written as functions of the index, to
    compare the loop with. *)

Section FisherRecurrence.
Context `{Lib}.
Open Scope float_scope.

Definition value_or_nan (r : result float) : float :=
  match r with
  | Ok x => x
  | Raise _ => nan
  end.

(** The carried value once index [i] is done: 0 up to the warm-up, then
    the clipped [raw] computed from the value of the index before. *)
Fixpoint raw_at (price : list float) (period : Z) (i : nat) : float :=
  if (Z.of_nat i <? period)%Z then 0
  else
    let prev := match i with
                | O => 0
                | S j => raw_at price period j
                end in
    value_or_nan (raw_update price period prev i).

(** The carried value on entry to iteration [k]. *)
Definition raw_before (price : list float) (period : Z) (k : nat) : float :=
  match k with
  | O => 0
  | S j => raw_at price period j
  end.

(** The smoothed output at index [i]. *)
Fixpoint filt_at (price : list float) (period : Z) (i : nat) : float :=
  if (Z.of_nat i <? period)%Z then nan
  else
    let y := fisher_value (raw_at price period i) in
    if (period <? Z.of_nat i)%Z
    then 0.5 * y + 0.5 * match i with
                         | O => nan
                         | S j => filt_at price period j
                         end
    else y.

(** The loop's variables after [k] iterations agree with the recurrence. *)
Definition fisher_inv (price : list float) (period : Z) (k : nat)
    (st : fisher_state) : Prop :=
  length (filt st) = length price /\
  length (fisher st) = length price /\
  prev_val st = raw_before price period k /\
  (forall i, (i < k)%nat -> fisher st !! i = Some (filt_at price period i)) /\
  (forall i, (i < k)%nat -> (period <= Z.of_nat i)%Z ->
             filt st !! i = Some (filt_at price period i)) /\
  (forall i, (k <= i < length price)%nat -> fisher st !! i = Some nan).

(** Iteration [i] replaces the carried value by the [raw] of index [i]. *)
Definition raw_updated_at (price : list float) (period : Z) (i : nat) : Prop :=
  exists st st',
    fisher_after price period i = Ok st /\
    fisher_after price period (S i) = Ok st' /\
    raw_update price period (prev_val st) i = Ok (prev_val st').

End FisherRecurrence.

(** ** Order of binary64 numbers *)

Definition le_cmp (c : option comparison) : bool :=
  match c with
  | Some (Lt | Eq) => true
  | _ => false
  end.

(** [x] lies in the closed interval from [lo] to [hi]. *)
Definition between (lo x hi : float) : Prop :=
  (lo <=? x)%float = true /\ (x <=? hi)%float = true.

(** ** A sample of the library routines

    Simple routines of the right shape, to run the engine on concrete
    inputs.  No theorem below depends on them: each is stated for every
    instance of [Lib]. *)

Definition sample_mean (w : list float) : float :=
  (foldl PrimFloat.add 0 w / foldl (fun n _ => n + 1) 0 w)%float.

#[local] Instance sample_lib : Lib.
Proof.
  refine {| np_log := fun x => (x - 1)%float;
            ta_rsi := fun c _ => map (fun _ => 42%float) c;
            ewm_mean := fun c _ => c;
            window_mean := sample_mean;
            bollinger_hband := fun c _ _ => map (fun x => (x + 1)%float) c;
            bollinger_lband := fun c _ _ => map (fun x => (x - 1)%float) c |}.
  - intros c w. apply length_map.
  - reflexivity.
  - intros c w d. apply length_map.
  - intros c w d. apply length_map.
Defined.

(** ** Extrema of a series *)

Definition is_max_of (m : float) (l : list float) : Prop :=
  In m l /\ forall x, In x l -> (x <=? m)%float = true.

Definition is_min_of (m : float) (l : list float) : Prop :=
  In m l /\ forall x, In x l -> (m <=? x)%float = true.

Definition defined (x : float) : Prop := PrimFloat.is_nan x = false.

(** ** Sample bars *)

(** A bar whose four prices are [lo], [hi], [lo], [c]. *)
Definition sample_bar (t : Z) (lo hi c : float) : bar :=
  {| time := t; open := lo; high := hi; low := lo; close := c |}.

(** Three quiet hourly bars, then a wide one that leaves the reference
    window on both sides. *)
Definition wide_last_bar : list bar :=
  [ sample_bar 0 99 101 100;
    sample_bar 3600 99 101 100;
    sample_bar 7200 99 101 100;
    sample_bar 10800 90 110 100 ]%float.

(** ** The checklist as functions of a cycle's inputs *)

Record gates : Type := Gates {
  gate_breach : bool;
  gate_divergence : bool;
  gate_below_midline : bool;
  gate_time_window : bool;
}.

Definition all_gates (g : gates) : bool :=
  gate_breach g && gate_divergence g && gate_below_midline g
  && gate_time_window g.

Definition last_or_nan (col : list float) : float := default nan (last col).

Section Checklist.
Context `{Lib}.

(** The four slow gates of a frame of H1 bars. *)
Definition slow_gates (df_h1 : list bar) : result gates :=
  let* hin := compute_h1_indicators df_h1 in
  let* found := detect_minor_sr_breach df_h1 SR_LOOKBACK in
  let* last_h1 := py_index (h1_bars hin) (-1) in
  let* last_rsi := py_index (rsi hin) (-1) in
  let* last_fisher := py_index (fisher_col hin) (-1) in
  Ok {| gate_breach := bool_decide (fst (fst found) <> None);
        gate_divergence :=
          (FISHER_RSI_GAP <=? abs (last_rsi - last_fisher))%float;
        gate_below_midline := (last_rsi <? 50)%float;
        gate_time_window := time_window (hour_of (time last_h1)) |}.

(** The fast stage confirms: the terminal answered with bars, the five
    indicator values of the newest bar are defined and the three
    conditions hold. *)
Definition m15_confirmed (answer : option (list bar)) : bool :=
  match fetch_ohlc answer with
  | None => false
  | Some df_m15 =>
      let m15 := compute_m15_indicators df_m15 in
      let price := default nan (close <$> last df_m15) in
      let v_ema50 := last_or_nan (ema50 m15) in
      let v_sma200 := last_or_nan (sma200 m15) in
      let v_sma400 := last_or_nan (sma400 m15) in
      let v_bb_h := last_or_nan (bb_h m15) in
      let v_bb_l := last_or_nan (bb_l m15) in
      negb (np.isnan_any [v_ema50; v_sma200; v_sma400; v_bb_h; v_bb_l])
      && sma_side_ok v_sma200 v_sma400
      && not_out_bands v_bb_l price v_bb_h
      && touched_ema price v_ema50
  end.

(** The slow stage hands over to the fast stage. *)
Definition h1_triggered (a : answers) : bool :=
  match fetch_ohlc (h1_answer a) with
  | None => false
  | Some df_h1 =>
      match slow_gates df_h1 with
      | Ok g => all_gates g
      | Raise _ => false
      end
  end.

End Checklist.

(** The writes of the slow stage, in the order of the loop body. *)
Definition apply_gates (g : gates) (s : monitor) : monitor :=
  set_h1_time_ok (gate_time_window g)
    (set_var 2 (bool_to_int (gate_below_midline g))
       (set_h1_last_close_below_50 (gate_below_midline g)
          (set_var 1 (bool_to_int (gate_divergence g))
             (set_h1_left_fisher (gate_divergence g)
                (set_var 0 (bool_to_int (gate_breach g))
                   (set_h1_sr_breached (gate_breach g) s)))))).

(** The events of a pass that got H1 bars: whether it [fired] the fast stage
    and whether that one [confirmed]. *)
Definition h1_trace (sym : string) (fired confirmed : bool) : list event :=
  EvFetch sym TIMEFRAME_H1 H1_LOOKBACK
  :: (if fired
      then EvNotify sym "H1" "Conditions met, checking M15..."
           :: EvFetch sym TIMEFRAME_M15 M15_LOOKBACK
           :: (if confirmed
               then [EvNotify sym "M15" "Retrace confirmed, ALL conditions met!"]
               else [])
      else [])
  ++ [EvSleep CHECK_INTERVAL].

(** The events of a pass that got none. *)
Definition nodata_trace (sym : string) : list event :=
  [EvFetch sym TIMEFRAME_H1 H1_LOOKBACK; EvLog "No H1 data yet";
   EvSleep CHECK_INTERVAL].

(** The events of a pass, from the terminal's answers alone. *)
Definition cycle_trace `{Lib} (a : answers) (sym : string) : list event :=
  match fetch_ohlc (h1_answer a) with
  | None => nodata_trace sym
  | Some _ => h1_trace sym (h1_triggered a) (m15_confirmed (m15_answer a))
  end.

(** The writes of a confirming fast stage. *)
Definition confirm (s : monitor) : monitor := set_var 4 1 (set_var 3 1 s).

(** The fields after a method has run, and its trace. *)
Definition state_after {A} (out : result A * monitor * list event) : monitor :=
  snd (fst out).
Definition trace_of {A} (out : result A * monitor * list event) : list event :=
  snd out.
Definition outcome_of {A} (out : result A * monitor * list event) : result A :=
  fst (fst out).

Fixpoint count_if {A} (p : A -> bool) (l : list A) : nat :=
  match l with
  | [] => 0
  | x :: rest => (if p x then 1 else 0) + count_if p rest
  end.

Definition is_m15_fetch (e : event) : bool :=
  match e with
  | EvFetch _ TIMEFRAME_M15 _ => true
  | _ => false
  end.

Definition is_notify (title : string) (e : event) : bool :=
  match e with
  | EvNotify _ t _ => String.eqb t title
  | _ => false
  end.

(** How often a pass entered the fast stage: each entry asks the terminal
    for M15 bars, and nothing else does. *)
Definition m15_invocations (tr : list event) : nat := count_if is_m15_fetch tr.

Definition notifications (title : string) (tr : list event) : nat :=
  count_if (is_notify title) tr.

(** The checklist: the four slow gates and the two fast-stage checkboxes. *)
Definition checklist (s : monitor)
  : bool * bool * bool * bool * option Z * option Z :=
  (h1_sr_breached s, h1_left_fisher s, h1_last_close_below_50 s,
   h1_time_ok s, vars s !! 3%nat, vars s !! 4%nat).

(** A pass overwrites the whole checklist: what it leaves does not depend on
    what it found. *)
Definition overwrites_checklist `{Lib} (a : answers) : Prop :=
  forall s1 s2,
    checklist (state_after (monitor_cycle a s1))
    = checklist (state_after (monitor_cycle a s2)).

(** The terminal answers as the shipped requests allow. *)
Definition shipped_answers (a : answers) : Prop :=
  forall rates,
    m15_answer a = Some rates ->
    range_answer TIMEFRAME_M15 M15_LOOKBACK rates.

(** ** Sample answers of the terminal *)

(** Twenty-one quiet hourly bars, the first at 18:00. *)
Definition quiet_h1 : list bar :=
  map (fun k => sample_bar (3600 * (18 + Z.of_nat k)) 99 101 100) (seq 0 21).

(** The same, then a bar at 15:00 whose high leaves the window. *)
Definition breakout_h1 : list bar :=
  quiet_h1 ++ [sample_bar (3600 * 39) 99 102 100].

(** Two bars of fifteen minutes. *)
Definition two_m15 : list bar :=
  [sample_bar 0 99 101 100; sample_bar 900 99 101 100].

Definition quiet_cycle : answers :=
  {| h1_answer := Some quiet_h1; m15_answer := None |}.

Definition breakout_cycle : answers :=
  {| h1_answer := Some breakout_h1; m15_answer := Some two_m15 |}.

Definition nodata_cycle : answers :=
  {| h1_answer := None; m15_answer := None |}.

(** ** Start-up: [mt5_connect], [mt5_shutdown] and [main] *)

Definition ACCOUNT : Z := 0.
Definition PASSWORD : string := "".
Definition SERVER : string := "".
Definition SYMBOLS : list string :=
  ["EURUSD"; "GBPUSD"; "USDJPY"; "XAUUSD"]%string.

(** What the terminal answers at start-up: to [mt5.initialize()], and to
    [mt5.login(...)] if it is asked. *)
Record terminal : Type := Terminal {
  initialize_ok : bool;
  login_ok : bool;
}.

(** What start-up does: calls to the terminal, lines on the console (a
    [SysPrint] carries the fixed text the line starts with), the monitors it
    builds and the GUI loop. *)
Inductive sys_event : Type :=
| SysInitialize
| SysLogin (account : Z) (password server : string)
| SysPrint (msg : string)
| SysMonitor (sym : string)
| SysMainloop
| SysShutdown.

(** Truth value of a Python int and of a Python string. *)
Definition int_truthy (n : Z) : bool := negb (n =? 0).
Definition str_truthy (s : string) : bool := negb (String.eqb s "").

(** [mt5_connect], on the three credentials of the configuration. *)
Definition mt5_connect (account : Z) (password server : string) (t : terminal)
  : bool * list sys_event :=
  if negb (initialize_ok t)
  then (false, [SysInitialize; SysPrint "mt5.initialize() failed:"])
  else
    if int_truthy account && str_truthy password && str_truthy server
    then
      if negb (login_ok t)
      then (true, [SysInitialize; SysLogin account password server;
                   SysPrint "mt5.login() failed:"])
      else (true, [SysInitialize; SysLogin account password server])
    else (true, [SysInitialize;
                 SysPrint "No login credentials in config"]).

(** [main]: the monitors it builds and what it does. *)
Definition main (account : Z) (password server : string)
    (symbols : list string) (t : terminal) : list monitor * list sys_event :=
  let '(connected, tr) := mt5_connect account password server t in
  if negb connected
  then ([], tr ++ [SysPrint "MT5 failed to init. Log into your terminal first."])
  else (map monitor_init symbols,
        tr ++ map SysMonitor symbols ++ [SysMainloop; SysShutdown]).

Definition is_login (e : sys_event) : bool :=
  match e with
  | SysLogin _ _ _ => true
  | _ => false
  end.

Definition is_shutdown (e : sys_event) : bool :=
  match e with
  | SysShutdown => true
  | _ => false
  end.

(** ** Counting the events of a run *)

Definition is_sleep (e : event) : bool :=
  match e with
  | EvSleep _ => true
  | _ => false
  end.

Definition is_h1_fetch (e : event) : bool :=
  match e with
  | EvFetch _ TIMEFRAME_H1 _ => true
  | _ => false
  end.

(** What every monitor built by [__init__] keeps true: each of the first
    three checkboxes shows its gate, the last two checkboxes are equal and
    hold 0 or 1, and [m15_retrace_ok] is false. *)
Definition checklist_inv (s : monitor) : Prop :=
  vars s !! 0%nat = Some (bool_to_int (h1_sr_breached s)) /\
  vars s !! 1%nat = Some (bool_to_int (h1_left_fisher s)) /\
  vars s !! 2%nat = Some (bool_to_int (h1_last_close_below_50 s)) /\
  vars s !! 3%nat = vars s !! 4%nat /\
  (vars s !! 3%nat = Some 0 \/ vars s !! 3%nat = Some 1) /\
  m15_retrace_ok s = false.

(** The part of the day, in seconds after midnight, in which the newest H1
    bar must open: 09:00 to 10:59 and 14:00 to 17:59. *)
Definition in_trading_hours (t : Z) : Prop :=
  32400 <= t mod 86400 < 39600 \/ 50400 <= t mod 86400 < 64800.

(** ** A sample M15 answer that confirms

    Four hundred bars, the close stepping from 100 to 101 half way. *)
Definition confirming_m15 : list bar :=
  map (fun k => sample_bar (900 * Z.of_nat k) 99 102
                  (if (k <? 200)%nat then 100 else 101)%float)
      (seq 0 400).

Definition confirming_cycle : answers :=
  {| h1_answer := Some breakout_h1; m15_answer := Some confirming_m15 |}.

(** ** Building the frame

    [fetch_ohlc] above is the function on an answer whose rows make a frame.
    Between the test for an empty answer and the [return], the source turns
    the [time] column into timestamps with [pd.to_datetime(..., unit='s')],
    which raises (OutOfBoundsDatetime, a ValueError) on a number of seconds
    whose nanoseconds do not fit 64 bits.  [fetch_ohlc_frame] is the function
    with that step. *)

Definition datetime_ok (t : Z) : Prop :=
  -9223372036 <= t <= 9223372036.

Definition datetime_okb (t : Z) : bool :=
  (-9223372036 <=? t) && (t <=? 9223372036).

(** [pd.to_datetime(df['time'], unit='s')] over the rows. *)
Definition to_datetime (rates : list bar) : result (list bar) :=
  if forallb (fun b => datetime_okb (time b)) rates
  then Ok rates
  else Raise ValueError.

Definition fetch_ohlc_frame (rates : option (list bar))
  : result (option (list bar)) :=
  match rates with
  | None => Ok None
  | Some r =>
      if Z.of_nat (length r) =? 0 then Ok None
      else
        let* df := to_datetime r in
        Ok (Some df)
  end.

(** * Properties *)

(** ** The order of binary64 numbers

    Comparisons of primitive floats are specified through [SFcompare]; the
    facts used below are that it is reflexive away from [nan], antisymmetric
    and transitive. *)

Module FloatOrder.

Lemma SFcompare_refl a : a <> S754_nan -> SFcompare a a = Some Eq.
Proof.
destruct a as [s|s| |s m e]; simpl; try congruence; intros _.
- now destruct s.
- destruct s; rewrite Z.compare_refl;
    change (Pos.compare_cont Eq m m) with (Pos.compare m m);
    now rewrite Pos.compare_refl.
Qed.

Lemma SFcompare_antisym a b :
SFcompare b a = option_map CompOpp (SFcompare a b).
Proof.
destruct a as [s1|s1| |s1 m1 e1], b as [s2|s2| |s2 m2 e2]; simpl;
  try reflexivity;
  try (destruct s1; reflexivity); try (destruct s2; reflexivity);
  try (destruct s1, s2; reflexivity).
change (Pos.compare_cont Eq m1 m2) with (Pos.compare m1 m2).
change (Pos.compare_cont Eq m2 m1) with (Pos.compare m2 m1).
rewrite (Z.compare_antisym e1 e2), (Pos.compare_antisym m1 m2).
destruct s1, s2; simpl; try reflexivity;
  destruct (e1 ?= e2); simpl; try reflexivity;
  destruct (m1 ?= m2)%positive; reflexivity.
Qed.

Lemma SFcompare_None a b :
SFcompare a b = None -> a = S754_nan \/ b = S754_nan.
Proof.
destruct a as [s1|s1| |s1 m1 e1], b as [s2|s2| |s2 m2 e2]; simpl;
  try discriminate; auto.
Qed.

Lemma SFcompare_le_trans a b c :
le_cmp (SFcompare a b) = true -> le_cmp (SFcompare b c) = true ->
le_cmp (SFcompare a c) = true.
Proof.
destruct a as [s1|s1| |s1 m1 e1], b as [s2|s2| |s2 m2 e2],
         c as [s3|s3| |s3 m3 e3]; simpl; try discriminate;
  try (destruct s1; simpl; try discriminate; try reflexivity);
  try (destruct s2; simpl; try discriminate; try reflexivity);
  try (destruct s3; simpl; try discriminate; try reflexivity);
  try reflexivity.
all: change (Pos.compare_cont Eq m1 m2) with (Pos.compare m1 m2).
all: change (Pos.compare_cont Eq m2 m3) with (Pos.compare m2 m3).
all: change (Pos.compare_cont Eq m1 m3) with (Pos.compare m1 m3).
all: destruct (Z.compare_spec e1 e2), (Z.compare_spec e2 e3),
       (Z.compare_spec e1 e3); simpl; try discriminate; try reflexivity;
       try lia.
all: destruct (Pos.compare_spec m1 m2), (Pos.compare_spec m2 m3),
       (Pos.compare_spec m1 m3); simpl; try discriminate;
       try reflexivity; try lia.
Qed.


Open Scope float_scope.

Lemma is_nan_spec x : PrimFloat.is_nan x = true <-> Prim2SF x = S754_nan.
Proof.
unfold PrimFloat.is_nan. rewrite FloatAxioms.eqb_spec. unfold SFeqb. split.
- intros E. destruct (SFcompare (Prim2SF x) (Prim2SF x)) as [c|] eqn:C.
  + destruct (Prim2SF x) eqn:P; try reflexivity;
      rewrite SFcompare_refl in C by discriminate;
      injection C as <-; discriminate.
  + now destruct (SFcompare_None _ _ C).
- intros ->. reflexivity.
Qed.

Lemma is_nan_nan x : PrimFloat.is_nan x = true -> x = nan.
Proof.
intros E. apply Prim2SF_inj. apply is_nan_spec in E. now rewrite E.
Qed.

Lemma not_nan_spec x : PrimFloat.is_nan x = false <-> Prim2SF x <> S754_nan.
Proof.
rewrite <- is_nan_spec. destruct (PrimFloat.is_nan x); split; congruence.
Qed.

Lemma leb_le_cmp x y :
(x <=? y) = le_cmp (SFcompare (Prim2SF x) (Prim2SF y)).
Proof. now rewrite leb_spec. Qed.

Lemma ltb_irrefl x : (x <? x) = false.
Proof.
rewrite ltb_spec. unfold SFltb.
destruct (SFcompare (Prim2SF x) (Prim2SF x)) as [c|] eqn:C; [|reflexivity].
destruct (Prim2SF x) eqn:P; try discriminate;
  rewrite SFcompare_refl in C by discriminate; now injection C as <-.
Qed.

Lemma eqb_ltb x y : (x =? y) = true -> (x <? y) = false /\ (y <? x) = false.
Proof.
rewrite FloatAxioms.eqb_spec, !ltb_spec. unfold SFeqb, SFltb.
rewrite (SFcompare_antisym (Prim2SF x) (Prim2SF y)).
now destruct (SFcompare (Prim2SF x) (Prim2SF y)) as [[]|].
Qed.

Lemma ltb_leb x y : (x <? y) = true -> (x <=? y) = true.
Proof.
rewrite ltb_spec, leb_spec. unfold SFltb, SFleb.
now destruct (SFcompare (Prim2SF x) (Prim2SF y)) as [[]|].
Qed.

Lemma ltb_not_nan x y :
(x <? y) = true -> PrimFloat.is_nan x = false /\ PrimFloat.is_nan y = false.
Proof.
rewrite ltb_spec, !not_nan_spec. unfold SFltb.
destruct (Prim2SF x), (Prim2SF y); simpl; try discriminate; intros _;
  split; discriminate.
Qed.

Lemma not_ltb_leb x y :
PrimFloat.is_nan x = false -> PrimFloat.is_nan y = false ->
(x <? y) = false -> (y <=? x) = true.
Proof.
rewrite !not_nan_spec, ltb_spec, leb_spec. unfold SFltb, SFleb.
intros Hx Hy. rewrite (SFcompare_antisym (Prim2SF x) (Prim2SF y)).
destruct (SFcompare (Prim2SF x) (Prim2SF y)) as [[]|] eqn:C; simpl;
  try easy.
now destruct (SFcompare_None _ _ C).
Qed.

Lemma leb_refl x : PrimFloat.is_nan x = false -> (x <=? x) = true.
Proof.
rewrite not_nan_spec, leb_spec. unfold SFleb. intros Hx.
now rewrite SFcompare_refl.
Qed.

Lemma leb_trans x y z :
(x <=? y) = true -> (y <=? z) = true -> (x <=? z) = true.
Proof. rewrite !leb_le_cmp. apply SFcompare_le_trans. Qed.

End FloatOrder.


(** Two float literals that differ: compare their classes and bits. *)
Ltac float_discr :=
  let E := fresh in
  intro E;
  match type of E with
  | ?a = ?b =>
      apply (f_equal (fun v => (Prim2SF v))) in E; vm_compute in E;
      discriminate E
  end.

(** ** Slices and indices *)

Lemma py_slice_inside {A} (l : list A) (a b : Z) :
  0 <= a <= b -> b <= Z.of_nat (length l) ->
  py_slice l a b = take (Z.to_nat (b - a)) (drop (Z.to_nat a) l).
Proof.
  intros Hab Hb. unfold py_slice, slice_bound.
  destruct (Z.ltb_spec a 0), (Z.ltb_spec b 0); try lia.
  now rewrite !Z.min_l by lia.
Qed.

Lemma py_slice_length_inside {A} (l : list A) (a b : Z) :
  0 <= a <= b -> b <= Z.of_nat (length l) ->
  length (py_slice l a b) = Z.to_nat (b - a).
Proof.
  intros Hab Hb. rewrite py_slice_inside by assumption.
  rewrite length_take, length_drop. lia.
Qed.

Lemma py_slice_lookup_inside {A} (l : list A) (a b : Z) (j : nat) :
  0 <= a <= b -> b <= Z.of_nat (length l) -> (j < Z.to_nat (b - a))%nat ->
  py_slice l a b !! j = l !! (Z.to_nat a + j)%nat.
Proof.
  intros Hab Hb Hj. rewrite py_slice_inside by assumption.
  rewrite lookup_take_lt by assumption. apply lookup_drop.
Qed.

(** [l[-k-1:-1]] is the [k] entries before the last one. *)
Lemma py_slice_before_last {A} (l : list A) (k : Z) :
  0 <= k -> k + 1 <= Z.of_nat (length l) ->
  py_slice l (- k - 1) (-1)
  = take (Z.to_nat k) (drop (length l - Z.to_nat k - 1) l).
Proof.
  intros Hk Hn. unfold py_slice, slice_bound.
  destruct (Z.ltb_spec (- k - 1) 0); [|lia].
  destruct (Z.ltb_spec (-1) 0); [|lia].
  rewrite !Z.max_r by lia. f_equal; [lia|]. f_equal. lia.
Qed.

Lemma py_index_last {A} (l : list A) (x : A) :
  last l = Some x -> py_index l (-1) = Ok x.
Proof.
  intros Hl. unfold py_index.
  assert (Hn : (0 < length l)%nat)
    by (destruct l; [discriminate | simpl; lia]).
  destruct (Z.ltb_spec (-1) 0); [|lia].
  destruct (Z.ltb_spec (-1 + Z.of_nat (length l)) 0); [lia|].
  destruct (Z.leb_spec (Z.of_nat (length l)) (-1 + Z.of_nat (length l))); [lia|].
  simpl. rewrite last_lookup in Hl.
  replace (Z.to_nat (-1 + Z.of_nat (length l))) with (pred (length l)) by lia.
  now rewrite Hl.
Qed.

Lemma py_index_last_nonempty {A} (l : list A) :
  (0 < length l)%nat -> exists x, last l = Some x /\ py_index l (-1) = Ok x.
Proof.
  intros Hn. destruct (last l) as [x|] eqn:E.
  - exists x. split; [reflexivity | now apply py_index_last].
  - apply last_None in E. subst l. simpl in Hn. lia.
Qed.

Lemma py_index_empty {A} (k : Z) : py_index (@nil A) k = Raise IndexError.
Proof.
  unfold py_index. simpl.
  now destruct (_ || _).
Qed.

(** ** Extrema of a column *)

Lemma fmax_cases a b : np.fmax a b = a \/ np.fmax a b = b.
Proof. unfold np.fmax. destruct (a <? b)%float; auto. Qed.

Lemma fmin_cases a b : np.fmin a b = a \/ np.fmin a b = b.
Proof. unfold np.fmin. destruct (b <? a)%float; auto. Qed.

Lemma fmax_upper a b :
  defined a -> defined b ->
  (a <=? np.fmax a b)%float = true /\ (b <=? np.fmax a b)%float = true.
Proof.
  unfold defined, np.fmax. intros Ha Hb. destruct (a <? b)%float eqn:E.
  - split; [now apply FloatOrder.ltb_leb | now apply FloatOrder.leb_refl].
  - split; [now apply FloatOrder.leb_refl | now apply FloatOrder.not_ltb_leb].
Qed.

Lemma fmin_lower a b :
  defined a -> defined b ->
  (np.fmin a b <=? a)%float = true /\ (np.fmin a b <=? b)%float = true.
Proof.
  unfold defined, np.fmin. intros Ha Hb. destruct (b <? a)%float eqn:E.
  - split; [now apply FloatOrder.ltb_leb | now apply FloatOrder.leb_refl].
  - split; [now apply FloatOrder.leb_refl | now apply FloatOrder.not_ltb_leb].
Qed.

Lemma foldl_fmax_is_max x xs :
  Forall defined (x :: xs) -> is_max_of (foldl np.fmax x xs) (x :: xs).
Proof.
  revert x. induction xs as [|y ys IH]; intros x Hdef.
  - split; [now left|]. intros z [<-|[]].
    apply FloatOrder.leb_refl. now inversion Hdef.
  - inversion Hdef as [|? ? Hx Hrest]; subst.
    inversion Hrest as [|? ? Hy Hys]; subst.
    assert (Hm : defined (np.fmax x y))
      by (destruct (fmax_cases x y) as [-> | ->]; assumption).
    destruct (IH (np.fmax x y)) as [Hin Hup]; [now constructor|].
    destruct (fmax_upper x y Hx Hy) as [Ux Uy].
    simpl foldl. split.
    + destruct Hin as [E|Hin]; [|now right; right].
      rewrite <- E. destruct (fmax_cases x y) as [-> | ->];
        [now left | now right; left].
    + intros z [<-|[<-|Hz]].
      * eapply FloatOrder.leb_trans; [exact Ux | apply Hup; now left].
      * eapply FloatOrder.leb_trans; [exact Uy | apply Hup; now left].
      * apply Hup. now right.
Qed.

Lemma foldl_fmin_is_min x xs :
  Forall defined (x :: xs) -> is_min_of (foldl np.fmin x xs) (x :: xs).
Proof.
  revert x. induction xs as [|y ys IH]; intros x Hdef.
  - split; [now left|]. intros z [<-|[]].
    apply FloatOrder.leb_refl. now inversion Hdef.
  - inversion Hdef as [|? ? Hx Hrest]; subst.
    inversion Hrest as [|? ? Hy Hys]; subst.
    assert (Hm : defined (np.fmin x y))
      by (destruct (fmin_cases x y) as [-> | ->]; assumption).
    destruct (IH (np.fmin x y)) as [Hin Hlow]; [now constructor|].
    destruct (fmin_lower x y Hx Hy) as [Lx Ly].
    simpl foldl. split.
    + destruct Hin as [E|Hin]; [|now right; right].
      rewrite <- E. destruct (fmin_cases x y) as [-> | ->];
        [now left | now right; left].
    + intros z [<-|[<-|Hz]].
      * eapply FloatOrder.leb_trans; [apply Hlow; now left | exact Lx].
      * eapply FloatOrder.leb_trans; [apply Hlow; now left | exact Ly].
      * apply Hlow. now right.
Qed.

Lemma dropna_defined s : Forall defined (pd.dropna s).
Proof.
  unfold pd.dropna. induction s as [|x s IH]; [constructor|].
  rewrite filter_cons. destruct (decide (PrimFloat.is_nan x = false)).
  - now constructor.
  - assumption.
Qed.

Lemma dropna_id s : Forall defined s -> pd.dropna s = s.
Proof.
  unfold pd.dropna. induction 1 as [|x s Hx Hs IH]; [reflexivity|].
  rewrite filter_cons. destruct (decide (PrimFloat.is_nan x = false)).
  - now rewrite IH.
  - contradiction.
Qed.

Lemma pd_max_is_max s :
  pd.dropna s <> [] -> is_max_of (pd.max s) (pd.dropna s).
Proof.
  intros Hne. unfold pd.max. pose proof (dropna_defined s) as Hd.
  destruct (pd.dropna s) as [|x xs]; [congruence|].
  now apply foldl_fmax_is_max.
Qed.

Lemma pd_min_is_min s :
  pd.dropna s <> [] -> is_min_of (pd.min s) (pd.dropna s).
Proof.
  intros Hne. unfold pd.min. pose proof (dropna_defined s) as Hd.
  destruct (pd.dropna s) as [|x xs]; [congruence|].
  now apply foldl_fmin_is_min.
Qed.

(** ** More on the order *)

Lemma ltb_not_leb (a b : float) :
  (a <? b)%float = true -> (b <=? a)%float = false.
Proof.
  rewrite ltb_spec, leb_spec. unfold SFltb, SFleb.
  rewrite (FloatOrder.SFcompare_antisym (Prim2SF a) (Prim2SF b)).
  now destruct (SFcompare (Prim2SF a) (Prim2SF b)) as [[]|].
Qed.

Lemma leb_defined (a b : float) :
  (a <=? b)%float = true -> defined a /\ defined b.
Proof.
  unfold defined. rewrite leb_spec, !FloatOrder.not_nan_spec. unfold SFleb.
  destruct (Prim2SF a), (Prim2SF b); simpl; try discriminate; intros _;
    split; discriminate.
Qed.

Lemma dropna_In (s : list float) (x : float) :
  In x (pd.dropna s) <-> In x s /\ PrimFloat.is_nan x = false.
Proof.
  unfold pd.dropna. rewrite <- !list_elem_of_In, list_elem_of_filter. tauto.
Qed.

Lemma dropna_nonempty (s : list float) :
  Exists (fun x => PrimFloat.is_nan x = false) s -> pd.dropna s <> [].
Proof.
  intros Hex E. apply Exists_exists in Hex as (x & Hx & Hd).
  assert (Hin : In x (pd.dropna s)).
  { apply dropna_In. split; [now apply list_elem_of_In | assumption]. }
  rewrite E in Hin. destruct Hin.
Qed.

Lemma dropna_all_nan (s : list float) :
  Forall (fun x => PrimFloat.is_nan x = true) s -> pd.dropna s = [].
Proof.
  intros Hall. destruct (pd.dropna s) as [|x l] eqn:E; [reflexivity|].
  assert (Hin : In x (pd.dropna s)) by (rewrite E; now left).
  apply dropna_In in Hin as [Hin Hd].
  rewrite Forall_forall in Hall. apply list_elem_of_In in Hin.
  specialize (Hall x Hin). congruence.
Qed.

(** [np.max] and [np.min] of an array without undefined entries. *)
Lemma reduce_defined (op : float -> float -> float) x xs :
  Forall defined (x :: xs) -> np.reduce op x xs = foldl op x xs.
Proof.
  intros Hd. unfold np.reduce.
  assert (E : existsb PrimFloat.is_nan (x :: xs) = false).
  { induction Hd as [|y l Hy _ IH]; [reflexivity|].
    simpl. unfold defined in Hy. now rewrite Hy, IH. }
  now rewrite E.
Qed.

Lemma reduce_undefined (op : float -> float -> float) x xs :
  ~ Forall defined (x :: xs) -> np.reduce op x xs = nan.
Proof.
  intros Hd. unfold np.reduce.
  destruct (existsb PrimFloat.is_nan (x :: xs)) eqn:E; [reflexivity|].
  exfalso. apply Hd. apply Forall_forall. intros y Hy.
  apply list_elem_of_In in Hy.
  unfold defined. destruct (PrimFloat.is_nan y) eqn:N; [|reflexivity].
  assert (existsb PrimFloat.is_nan (x :: xs) = true)
    by (apply existsb_exists; eauto).
  congruence.
Qed.

(** The four cases of [np.clip]. *)
Lemma clip_cases (x lo hi : float) :
  (lo <=? hi)%float = true ->
  (PrimFloat.is_nan x = true -> np.clip x lo hi = nan) /\
  ((x <? lo)%float = true -> np.clip x lo hi = lo) /\
  ((hi <? x)%float = true -> np.clip x lo hi = hi) /\
  (between lo x hi -> np.clip x lo hi = x).
Proof.
  intros Hlh. unfold np.clip, between. repeat split.
  - intros N. rewrite N. now apply FloatOrder.is_nan_nan.
  - intros L. destruct (FloatOrder.ltb_not_nan _ _ L) as [-> _].
    now rewrite L.
  - intros G. destruct (FloatOrder.ltb_not_nan _ _ G) as [_ ->].
    destruct (x <? lo)%float eqn:L; [|now rewrite G].
    apply FloatOrder.ltb_leb in L.
    pose proof (FloatOrder.leb_trans _ _ _ L Hlh) as Hxh.
    apply ltb_not_leb in G. congruence.
  - intros [Hl Hh]. destruct (leb_defined _ _ Hl) as [_ Nx].
    unfold defined in Nx. rewrite Nx.
    destruct (x <? lo)%float eqn:L.
    { apply ltb_not_leb in L. congruence. }
    destruct (hi <? x)%float eqn:G; [|reflexivity].
    apply ltb_not_leb in G. congruence.
Qed.

(** ** The Fisher transform *)

Section FisherProofs.
Context `{Lib}.
Open Scope float_scope.

Lemma fisher_loop_app price period st idx1 idx2 :
  fisher_loop price period st (idx1 ++ idx2)
  = rbind (fisher_loop price period st idx1)
          (fun st' => fisher_loop price period st' idx2).
Proof.
  revert st. induction idx1 as [|i idx1 IH]; intros st; simpl.
  - reflexivity.
  - destruct (fisher_step price period st i) as [st'|e]; simpl.
    + apply IH.
    + reflexivity.
Qed.

Lemma fisher_after_S price period k :
  fisher_after price period (S k)
  = rbind (fisher_after price period k)
          (fun st => fisher_step price period st k).
Proof.
  unfold fisher_after. rewrite seq_S, fisher_loop_app. simpl.
  destruct (fisher_loop _ _ _ (seq 0 k)) as [st|e]; simpl; [|reflexivity].
  now destruct (fisher_step price period st k).
Qed.

(** Before the warm-up an iteration changes nothing. *)
Lemma fisher_step_skip price period st i :
  (Z.of_nat i < period)%Z -> fisher_step price period st i = Ok st.
Proof.
  intros Hi. unfold fisher_step.
  now destruct (Z.ltb_spec (Z.of_nat i) period); [|lia].
Qed.

Lemma fisher_after_warmup price period k :
  (Z.of_nat k <= period)%Z ->
  fisher_after price period k = Ok (fisher_init (length price)).
Proof.
  induction k as [|k IH]; intros Hk.
  - reflexivity.
  - rewrite fisher_after_S, IH by lia. simpl.
    apply fisher_step_skip. lia.
Qed.

(** From the warm-up on the window is full, so the extrema exist. *)
Lemma window_full (price : list float) period i :
  (1 <= period)%Z -> (period <= Z.of_nat i)%Z -> (i < length price)%nat ->
  length (py_slice price (Z.of_nat i - period + 1) (Z.of_nat i + 1))
  = Z.to_nat period.
Proof.
  intros Hp Hi Hn. rewrite py_slice_length_inside by lia. lia.
Qed.

Lemma raw_update_ok price period prev i :
  (1 <= period)%Z -> (period <= Z.of_nat i)%Z -> (i < length price)%nat ->
  exists r, raw_update price period prev i = Ok r.
Proof.
  intros Hp Hi Hn. unfold raw_update.
  pose proof (window_full price period i Hp Hi Hn) as Hw.
  destruct (py_slice price _ _) as [|x xs]; [simpl in Hw; lia|].
  simpl. eauto.
Qed.

Lemma raw_at_eq price period i :
  raw_at price period i
  = if (Z.of_nat i <? period)%Z then 0
    else value_or_nan
           (raw_update price period (raw_before price period i) i).
Proof. destruct i; reflexivity. Qed.

Lemma filt_at_eq price period i :
  filt_at price period i
  = if (Z.of_nat i <? period)%Z then nan
    else if (period <? Z.of_nat i)%Z
         then 0.5 * fisher_value (raw_at price period i)
              + 0.5 * match i with
                      | O => nan
                      | S j => filt_at price period j
                      end
         else fisher_value (raw_at price period i).
Proof. destruct i; reflexivity. Qed.

Lemma raw_at_warmup price period i :
  (Z.of_nat i < period)%Z -> raw_at price period i = 0.
Proof.
  intros Hi. rewrite raw_at_eq.
  now destruct (Z.ltb_spec (Z.of_nat i) period); [|lia].
Qed.

Lemma raw_at_step price period i :
  (period <= Z.of_nat i)%Z ->
  raw_at price period i
  = value_or_nan (raw_update price period (raw_before price period i) i).
Proof.
  intros Hi. rewrite raw_at_eq.
  now destruct (Z.ltb_spec (Z.of_nat i) period); [lia|].
Qed.

Lemma filt_at_warmup price period i :
  (Z.of_nat i < period)%Z -> filt_at price period i = nan.
Proof.
  intros Hi. rewrite filt_at_eq.
  now destruct (Z.ltb_spec (Z.of_nat i) period); [|lia].
Qed.

Lemma filt_at_first price period i :
  Z.of_nat i = period ->
  filt_at price period i = fisher_value (raw_at price period i).
Proof.
  intros Hi. rewrite filt_at_eq.
  destruct (Z.ltb_spec (Z.of_nat i) period); [lia|].
  now destruct (Z.ltb_spec period (Z.of_nat i)); [lia|].
Qed.

Lemma filt_at_later price period i :
  (period <= Z.of_nat i)%Z ->
  filt_at price period (S i)
  = 0.5 * fisher_value (raw_at price period (S i))
    + 0.5 * filt_at price period i.
Proof.
  intros Hi. rewrite filt_at_eq.
  destruct (Z.ltb_spec (Z.of_nat (S i)) period); [lia|].
  now destruct (Z.ltb_spec period (Z.of_nat (S i))); [|lia].
Qed.

Lemma fisher_inv_init price period :
  fisher_inv price period 0 (fisher_init (length price)).
Proof.
  unfold fisher_inv, fisher_init. simpl.
  rewrite !length_replicate. repeat split; try reflexivity; try lia.
  intros i Hi. apply lookup_replicate_2. lia.
Qed.

Lemma fisher_inv_step price period k st :
  (1 <= period)%Z -> (k < length price)%nat ->
  fisher_inv price period k st ->
  exists st', fisher_step price period st k = Ok st' /\
              fisher_inv price period (S k) st'.
Proof.
  intros Hp Hk (Lf & Lo & Hprev & Hout & Hfilt & Hrest).
  unfold fisher_step.
  destruct (Z.ltb_spec (Z.of_nat k) period) as [Hlt|Hge].
  - exists st. split; [reflexivity|].
    repeat split; try assumption.
    + simpl. rewrite raw_at_warmup by assumption.
      rewrite Hprev. destruct k; [reflexivity|].
      simpl. apply raw_at_warmup. lia.
    + intros i Hi. destruct (decide (i = k)) as [->|Hne].
      * rewrite filt_at_warmup by assumption. apply Hrest. lia.
      * apply Hout. lia.
    + intros i Hi Hpi. apply Hfilt; lia.
    + intros i Hi. apply Hrest. lia.
  - destruct (raw_update_ok price period (prev_val st) k Hp Hge Hk)
      as [r Hr].
    rewrite Hr. simpl. eexists. split; [reflexivity|].
    assert (Er : r = raw_at price period k).
    { rewrite raw_at_step, <- Hprev, Hr by assumption. reflexivity. }
    assert (Efi :
      (if (period <? Z.of_nat k)%Z
       then 0.5 * fisher_value r + 0.5 * at_index (filt st) (k - 1)
       else fisher_value r) = filt_at price period k).
    { destruct (Z.ltb_spec period (Z.of_nat k)) as [Hgt|Heq].
      - destruct k as [|j]; [lia|].
        rewrite filt_at_later by lia.
        replace (S j - 1)%nat with j by lia.
        unfold at_index. rewrite Hfilt by lia. simpl. now rewrite Er.
      - rewrite filt_at_first by lia. now rewrite Er. }
    rewrite Efi. unfold fisher_inv. simpl.
    rewrite !length_insert. repeat split; try assumption.
    + intros i Hi. destruct (decide (i = k)) as [->|Hne].
      * apply list_lookup_insert_eq. lia.
      * rewrite list_lookup_insert_ne by congruence. apply Hout. lia.
    + intros i Hi Hpi. destruct (decide (i = k)) as [->|Hne].
      * apply list_lookup_insert_eq. lia.
      * rewrite list_lookup_insert_ne by congruence. apply Hfilt; lia.
    + intros i Hi. rewrite list_lookup_insert_ne by lia. apply Hrest. lia.
Qed.

Lemma fisher_after_inv price period k :
  (1 <= period)%Z -> (k <= length price)%nat ->
  exists st, fisher_after price period k = Ok st /\
             fisher_inv price period k st.
Proof.
  intros Hp. induction k as [|k IH]; intros Hk.
  - exists (fisher_init (length price)). split; [reflexivity|].
    apply fisher_inv_init.
  - destruct IH as (st & Hst & Hinv); [lia|].
    destruct (fisher_inv_step price period k st Hp) as (st' & Hs & Hinv');
      [lia | assumption |].
    exists st'. split; [|assumption].
    rewrite fisher_after_S, Hst. exact Hs.
Qed.

(** The clip leaves a number of the interval, or [nan]. *)
Lemma clip_between x lo hi :
  (lo <=? hi) = true ->
  np.clip x lo hi = nan \/ between lo (np.clip x lo hi) hi.
Proof.
  intros Hlh. unfold np.clip, between.
  destruct (PrimFloat.is_nan x) eqn:Nx.
  - left. now apply FloatOrder.is_nan_nan.
  - right.
    assert (Nlo : PrimFloat.is_nan lo = false).
    { destruct (PrimFloat.is_nan lo) eqn:N; [|reflexivity].
      apply FloatOrder.is_nan_nan in N. subst lo.
      rewrite leb_spec in Hlh. now vm_compute in Hlh. }
    assert (Nhi : PrimFloat.is_nan hi = false).
    { destruct (PrimFloat.is_nan hi) eqn:N; [|reflexivity].
      apply FloatOrder.is_nan_nan in N. subst hi.
      rewrite leb_spec in Hlh. unfold SFleb in Hlh.
      destruct (Prim2SF lo); now vm_compute in Hlh. }
    destruct (x <? lo) eqn:L1.
    + split; [now apply FloatOrder.leb_refl | assumption].
    + destruct (hi <? x) eqn:L2.
      * split; [assumption | now apply FloatOrder.leb_refl].
      * split; now apply FloatOrder.not_ltb_leb.
Qed.

Lemma raw_at_clipped price period i :
  (1 <= period)%Z -> (period <= Z.of_nat i)%Z -> (i < length price)%nat ->
  raw_at price period i = nan \/
  between (-0.999) (raw_at price period i) 0.999.
Proof.
  intros Hp Hi Hn. rewrite raw_at_step by assumption.
  unfold raw_update.
  pose proof (window_full price period i Hp Hi Hn) as Hw.
  destruct (py_slice price _ _) as [|x xs]; [simpl in Hw; lia|].
  simpl. now apply clip_between.
Qed.

(** The carried value of an index from the warm-up on, written out: the
    window, its extrema, the value before the clip and the clip. *)
Lemma raw_at_formula price period i :
  (1 <= period)%Z -> (period <= Z.of_nat i)%Z -> (i < length price)%nat ->
  exists window max_h min_l p_i u,
    window = take (Z.to_nat period) (drop (i + 1 - Z.to_nat period) price) /\
    length window = Z.to_nat period /\
    np.max window = Ok max_h /\
    np.min window = Ok min_l /\
    (Forall defined window ->
     is_max_of max_h window /\ is_min_of min_l window) /\
    (~ Forall defined window -> max_h = nan /\ min_l = nan) /\
    price !! i = Some p_i /\
    u = (if max_h - min_l =? 0 then 0
         else 0.33 * 2 * ((p_i - min_l) / (max_h - min_l) - 0.5)
              + 0.67 * raw_at price period (i - 1)) /\
    raw_at price period i = np.clip u (-0.999) 0.999.
Proof.
  intros Hp Hi Hn.
  destruct (lookup_lt_is_Some_2 price i Hn) as [p_i Hpi].
  rewrite (raw_at_step price period i) by assumption. unfold raw_update.
  rewrite py_slice_inside by lia.
  replace (Z.to_nat (Z.of_nat i + 1 - (Z.of_nat i - period + 1)))
    with (Z.to_nat period) by lia.
  replace (Z.to_nat (Z.of_nat i - period + 1))
    with (i + 1 - Z.to_nat period)%nat by lia.
  remember (take (Z.to_nat period) (drop (i + 1 - Z.to_nat period) price))
    as window eqn:Ew.
  assert (Hlen : length window = Z.to_nat period).
  { rewrite Ew, length_take, length_drop. lia. }
  assert (Hprev : raw_before price period i = raw_at price period (i - 1)).
  { destruct i as [|j]; [lia|]. simpl. now replace (j - 0)%nat with j by lia. }
  unfold at_index. rewrite Hpi, Hprev. simpl default.
  destruct window as [|x xs]; [simpl in Hlen; lia|].
  simpl rbind. simpl value_or_nan.
  exists (x :: xs), (np.reduce np.fmax x xs), (np.reduce np.fmin x xs), p_i.
  eexists. split; [reflexivity|]. split; [assumption|].
  split; [reflexivity|]. split; [reflexivity|].
  split; [|split].
  - intros Hd. rewrite !reduce_defined by assumption.
    split; [now apply foldl_fmax_is_max | now apply foldl_fmin_is_min].
  - intros Hd. now rewrite !reduce_undefined.
  - split; [reflexivity|]. split; reflexivity.
Qed.

(** A warm-up length below 1 is not an input of the transform: on a
    series with an entry the first window is empty and [np.max] raises. *)
Lemma fisher_transform_nonpositive_period price period :
  (period <= 0)%Z -> price <> [] ->
  fisher_transform price period = Raise ValueError.
Proof.
  intros Hp Hne. destruct price as [|x price]; [congruence|].
  unfold fisher_transform, fisher_after. simpl length. simpl seq.
  simpl fisher_loop. unfold fisher_step, raw_update.
  change (Z.of_nat 0) with 0%Z.
  destruct (Z.ltb_spec 0 period); [lia|].
  assert (Hw : py_slice (x :: price) (0 - period + 1) (0 + 1) = []).
  { unfold py_slice, slice_bound. simpl length.
    destruct (Z.ltb_spec (0 - period + 1) 0); [lia|].
    destruct (Z.ltb_spec (0 + 1) 0); [lia|].
    replace (Z.to_nat _) with 0%nat by lia. reflexivity. }
  rewrite Hw. reflexivity.
Qed.

End FisherProofs.

(** A series to run the transform on, with warm-up length 2. *)
Lemma sample_prices_run :
  fisher_after [1; 2; 3; 4]%float 2 1 = Ok (fisher_init 4) /\
  fisher_after [1; 2; 3; 4]%float 2 2 = Ok (fisher_init 4) /\
  raw_update [1; 2; 3; 4]%float 2 0 1 = Ok 0.33%float.
Proof. repeat split; vm_compute; reflexivity. Qed.

(** C1, as stated, fails: at index 1, before the warm-up length 2, the window
    [1; 2] would give the carried value 0.33, and the loop leaves it at 0. *)
Lemma raw_not_updated_before_warmup :
  ~ raw_updated_at [1; 2; 3; 4]%float 2 1.
Proof.
  destruct sample_prices_run as (H1 & H2 & H3).
  intros (st & st' & E1 & E2 & E3).
  rewrite H1 in E1. rewrite H2 in E2.
  injection E1 as <-. injection E2 as <-.
  simpl in E3. rewrite H3 in E3.
  apply (f_equal value_or_nan) in E3. revert E3. simpl. float_discr.
Qed.

(** C1, amended: the carried value starts at 0 and the loop skips every index
    before the warm-up length [period], leaving all its variables as they
    were initialised; so the first output, at index [period], is computed
    from the carried value 0.  From that index on, each iteration replaces
    the carried value by the clipped [raw] of its index. *)
Theorem fisher_carried_value `{Lib} (price : list float) (period : Z) (i : nat) :
  1 <= period -> (i < length price)%nat ->
  exists st st',
    fisher_after price period i = Ok st /\
    fisher_after price period (S i) = Ok st' /\
    (Z.of_nat i <= period ->
       st = fisher_init (length price) /\ prev_val st = 0%float) /\
    (Z.of_nat i < period -> st' = st) /\
    (period <= Z.of_nat i ->
       raw_update price period (prev_val st) i = Ok (prev_val st')).
Proof.
  intros Hp Hi.
  destruct (fisher_after_inv price period i Hp) as (st & Hst & Hinv); [lia|].
  destruct (fisher_inv_step price period i st Hp Hi Hinv) as (st' & Hs & Hinv').
  exists st, st'. split; [assumption|].
  split; [now rewrite fisher_after_S, Hst|].
  split; [|split].
  - intros Hle. rewrite fisher_after_warmup in Hst by assumption.
    injection Hst as <-. split; reflexivity.
  - intros Hlt. rewrite fisher_step_skip in Hs by assumption. congruence.
  - intros Hge.
    destruct (raw_update_ok price period (prev_val st) i Hp Hge Hi) as [r Hr].
    unfold fisher_step in Hs.
    destruct (Z.ltb_spec (Z.of_nat i) period); [lia|].
    rewrite Hr in Hs. simpl in Hs. injection Hs as <-. exact Hr.
Qed.

Lemma fisher_carried_value_witness :
  1 <= 2 /\ (1 < length [1; 2; 3; 4]%float)%nat /\
  exists st st',
    fisher_after [1; 2; 3; 4]%float 2 1 = Ok st /\
    fisher_after [1; 2; 3; 4]%float 2 2 = Ok st' /\
    (Z.of_nat 1 <= 2 -> st = fisher_init 4 /\ prev_val st = 0%float) /\
    (Z.of_nat 1 < 2 -> st' = st) /\
    (2 <= Z.of_nat 1 ->
       raw_update [1; 2; 3; 4]%float 2 (prev_val st) 1 = Ok (prev_val st')).
Proof.
  split; [lia|]. split; [simpl; lia|].
  apply (fisher_carried_value [1; 2; 3; 4]%float 2 1); [lia | simpl; lia].
Defined.

(** C2: for a warm-up length [period] of at least 1 the transform returns a
    series as long as its input.  At every index below [period] the output is
    undefined ([nan]) and the carried value is 0.  From [period] on the
    carried value [raw] is the clip to [-0.999, 0.999] of
    [0.33 * 2 * (pos - 0.5) + 0.67 * raw_prev] (0 on a flat window), with the
    extrema taken over the [period] closes that end at the index.  At index
    [period] the output is [y = 0.5 * ln ((1 + raw) / (1 - raw))]; at every
    later index it is [0.5 * y + 0.5 * filt[i-1]], where [filt[i-1]] is the
    output of the index before. *)
Theorem fisher_transform_output `{Lib} (price : list float) (period : Z) :
  1 <= period ->
  exists st,
    fisher_after price period (length price) = Ok st /\
    fisher_transform price period = Ok (fisher st) /\
    length (fisher st) = length price /\
    forall i, (i < length price)%nat ->
      let raw := raw_at price period i in
      let y := (0.5 * np_log ((1 + raw) / (1 - raw)))%float in
      (Z.of_nat i < period -> fisher st !! i = Some nan) /\
      (Z.of_nat i < period -> raw = 0%float) /\
      (period <= Z.of_nat i -> raw = nan \/ between (-0.999) raw 0.999) /\
      (period <= Z.of_nat i ->
       exists window max_h min_l p_i u,
         window
         = take (Z.to_nat period) (drop (i + 1 - Z.to_nat period) price) /\
         length window = Z.to_nat period /\
         np.max window = Ok max_h /\
         np.min window = Ok min_l /\
         (Forall (fun x => PrimFloat.is_nan x = false) window ->
          (In max_h window /\
           forall x, In x window -> (x <=? max_h)%float = true) /\
          (In min_l window /\
           forall x, In x window -> (min_l <=? x)%float = true)) /\
         (~ Forall (fun x => PrimFloat.is_nan x = false) window ->
          max_h = nan /\ min_l = nan) /\
         price !! i = Some p_i /\
         u = (if max_h - min_l =? 0 then 0
              else 0.33 * 2 * ((p_i - min_l) / (max_h - min_l) - 0.5)
                   + 0.67 * raw_at price period (i - 1))%float /\
         (PrimFloat.is_nan u = true -> raw = nan) /\
         ((u <? -0.999)%float = true -> raw = (-0.999)%float) /\
         ((0.999 <? u)%float = true -> raw = 0.999%float) /\
         ((-0.999 <=? u)%float = true -> (u <=? 0.999)%float = true ->
          raw = u)) /\
      (Z.of_nat i = period -> fisher st !! i = Some y) /\
      (period < Z.of_nat i ->
         exists prev,
           fisher st !! (i - 1)%nat = Some prev /\
           filt st !! (i - 1)%nat = Some prev /\
           fisher st !! i = Some (0.5 * y + 0.5 * prev)%float).
Proof.
  intros Hp.
  destruct (fisher_after_inv price period (length price) Hp)
    as (st & Hst & Lf & Lo & Hprev & Hout & Hfilt & Hrest); [lia|].
  exists st. split; [assumption|].
  split; [unfold fisher_transform; now rewrite Hst|].
  split; [assumption|].
  intros i Hi raw y.
  split; [|split; [|split; [|split; [|split]]]].
  - intros Hlt. rewrite Hout by assumption.
    now rewrite filt_at_warmup.
  - intros Hlt. now apply raw_at_warmup.
  - intros Hge. now apply raw_at_clipped.
  - intros Hge.
    destruct (raw_at_formula price period i Hp Hge Hi)
      as (w & mx & mn & p_i & u & Ew & Lw & Emx & Emn & Hdef & Hundef & Hpi
          & Eu & Eraw).
    exists w, mx, mn, p_i, u.
    split; [assumption|]. split; [assumption|].
    split; [assumption|]. split; [assumption|].
    split; [exact Hdef|]. split; [exact Hundef|].
    split; [assumption|]. split; [assumption|].
    assert (Hlh : (-0.999 <=? 0.999)%float = true) by reflexivity.
    destruct (clip_cases u (-0.999) 0.999 Hlh) as (C1 & C2 & C3 & C4).
    unfold raw. rewrite Eraw.
    split; [exact C1|]. split; [exact C2|]. split; [exact C3|].
    intros Hl Hh. apply C4. split; assumption.
  - intros Heq. rewrite Hout by assumption.
    now rewrite filt_at_first.
  - intros Hgt. destruct i as [|j]; [lia|].
    exists (filt_at price period j).
    replace (S j - 1)%nat with j by lia.
    split; [apply Hout; lia|].
    split; [apply Hfilt; lia|].
    rewrite Hout by assumption. now rewrite filt_at_later by lia.
Qed.

(** On [1; 2; 3; 4] with warm-up length 2: the first two outputs are
    undefined, the carried value of index 2 is 0.33, and the output of
    index 3 blends the output of index 2. *)
Lemma fisher_transform_output_witness :
  1 <= 2 /\
  exists st,
    fisher_after [1; 2; 3; 4]%float 2 4 = Ok st /\
    fisher_transform [1; 2; 3; 4]%float 2 = Ok (fisher st) /\
    length (fisher st) = 4%nat /\
    fisher st !! 0%nat = Some nan /\
    fisher st !! 1%nat = Some nan /\
    raw_at [1; 2; 3; 4]%float 2 2 = 0.33%float /\
    fisher st !! 2%nat
    = Some (0.5 * np_log ((1 + 0.33) / (1 - 0.33)))%float /\
    exists prev,
      fisher st !! 2%nat = Some prev /\
      fisher st !! 3%nat
      = Some (0.5 * (0.5 * np_log ((1 + raw_at [1; 2; 3; 4] 2 3)
                                   / (1 - raw_at [1; 2; 3; 4] 2 3)))
              + 0.5 * prev)%float.
Proof.
  split; [lia|].
  destruct (fisher_transform_output [1; 2; 3; 4]%float 2)
    as (st & H1 & H2 & H3 & Hall); [lia|].
  exists st. split; [assumption|]. split; [assumption|]. split; [assumption|].
  destruct (Hall 0%nat) as (N0 & _); [simpl; lia|].
  destruct (Hall 1%nat) as (N1 & _); [simpl; lia|].
  destruct (Hall 2%nat) as (_ & _ & _ & _ & Y2 & _); [simpl; lia|].
  destruct (Hall 3%nat) as (_ & _ & _ & _ & _ & Y3); [simpl; lia|].
  assert (R2 : raw_at [1; 2; 3; 4]%float 2 2 = 0.33%float)
    by (vm_compute; reflexivity).
  split; [apply N0; lia|]. split; [apply N1; lia|].
  split; [exact R2|].
  split; [rewrite <- R2; apply Y2; reflexivity|].
  destruct Y3 as (prev & P1 & _ & P2); [lia|].
  exists prev. split; assumption.
Defined.

(** ** The breach detector *)

(** With at least [lookback + 1] bars, the frame splits into older bars, the
    reference window of [lookback] bars and the newest bar. *)
Lemma reference_window (df : list bar) (lookback : Z) :
  0 <= lookback -> lookback + 1 <= Z.of_nat (length df) ->
  exists older last,
    df = older ++ py_slice df (- lookback - 1) (-1) ++ [last] /\
    Z.of_nat (length (py_slice df (- lookback - 1) (-1))) = lookback /\
    py_index df (-1) = Ok last.
Proof.
  intros HL Hn.
  destruct (py_index_last_nonempty df) as (b & Hlast & Hidx); [lia|].
  rewrite py_slice_before_last by lia.
  set (k := Z.to_nat lookback).
  set (a := (length df - k - 1)%nat).
  exists (take a df), b. split; [|split].
  - rewrite <- (take_drop a df) at 1. f_equal.
    rewrite <- (take_drop k (drop a df)) at 1. f_equal.
    rewrite drop_drop.
    assert (Hlen : length (drop (a + k) df) = 1%nat)
      by (rewrite length_drop; lia).
    destruct (drop (a + k) df) as [|z [|? ?]] eqn:E; try discriminate.
    f_equal. rewrite last_lookup in Hlast.
    assert (Hz : df !! (a + k + 0)%nat = Some z).
    { rewrite <- lookup_drop, E. reflexivity. }
    replace (a + k + 0)%nat with (pred (length df)) in Hz by lia.
    congruence.
  - rewrite length_take, length_drop. lia.
  - assumption.
Qed.

(** The verdict on a frame that is long enough, by cases. *)
Lemma detect_minor_sr_breach_long (df_h1 : list bar) (lookback : Z) (b : bar) :
  lookback + 2 <= Z.of_nat (length df_h1) ->
  py_index df_h1 (-1) = Ok b ->
  let recent := py_slice df_h1 (- lookback - 1) (-1) in
  let prev_high := pd.max (map high recent) in
  let prev_low := pd.min (map low recent) in
  detect_minor_sr_breach df_h1 lookback
  = Ok (if (prev_high * (1 + small_pct) <? high b)%float
        then (Some resistance, Some prev_high, (high b - prev_high)%float)
        else if (low b <? prev_low * (1 - small_pct))%float
             then (Some support, Some prev_low, (prev_low - low b)%float)
             else (None, None, 0%float)).
Proof.
  intros Hn Hidx recent prev_high prev_low. unfold detect_minor_sr_breach.
  destruct (Z.ltb_spec (Z.of_nat (length df_h1)) (lookback + 2)); [lia|].
  rewrite Hidx. unfold rbind. fold recent. fold prev_high. fold prev_low.
  destruct (prev_high * (1 + small_pct) <? high b)%float; [reflexivity|].
  now destruct (low b <? prev_low * (1 - small_pct))%float.
Qed.

(** The greatest defined entry of a column, and the least, as pandas
    reduces it. *)
Lemma pd_max_greatest (s : list float) :
  (Exists (fun x => PrimFloat.is_nan x = false) s ->
   PrimFloat.is_nan (pd.max s) = false /\ In (pd.max s) s /\
   forall x, In x s -> PrimFloat.is_nan x = false ->
             (x <=? pd.max s)%float = true) /\
  (Forall (fun x => PrimFloat.is_nan x = true) s -> pd.max s = nan).
Proof.
  split.
  - intros Hex. destruct (pd_max_is_max s (dropna_nonempty s Hex)) as [Hin Hup].
    apply dropna_In in Hin as [Hin Hd].
    repeat split; try assumption.
    intros x Hx Hdx. apply Hup. now apply dropna_In.
  - intros Hall. unfold pd.max. now rewrite dropna_all_nan.
Qed.

Lemma pd_min_least (s : list float) :
  (Exists (fun x => PrimFloat.is_nan x = false) s ->
   PrimFloat.is_nan (pd.min s) = false /\ In (pd.min s) s /\
   forall x, In x s -> PrimFloat.is_nan x = false ->
             (pd.min s <=? x)%float = true) /\
  (Forall (fun x => PrimFloat.is_nan x = true) s -> pd.min s = nan).
Proof.
  split.
  - intros Hex. destruct (pd_min_is_min s (dropna_nonempty s Hex)) as [Hin Hlow].
    apply dropna_In in Hin as [Hin Hd].
    repeat split; try assumption.
    intros x Hx Hdx. apply Hlow. now apply dropna_In.
  - intros Hall. unfold pd.min. now rewrite dropna_all_nan.
Qed.

(** C5: with fewer than [lookback + 2] bars the detector reports no signal.
    Otherwise the frame is older bars, then the reference window of the
    [lookback] bars just before the newest bar, then the newest bar.
    [prev_high] is the greatest defined high of the window and [prev_low] its
    least defined low (undefined when the window has none), and these are the
    levels the verdict is computed from: a resistance breach exactly when
    [last.high > prev_high * (1 + 0.0005)], else a support breach when
    [last.low < prev_low * (1 - 0.0005)], else no breach. *)
Theorem detect_minor_sr_breach_spec (df_h1 : list bar) (lookback : Z) :
  0 <= lookback ->
  (Z.of_nat (length df_h1) < lookback + 2 ->
   detect_minor_sr_breach df_h1 lookback = Ok (None, None, 0%float)) /\
  (lookback + 2 <= Z.of_nat (length df_h1) ->
   exists older recent newest prev_high prev_low res,
     df_h1 = older ++ recent ++ [newest] /\
     Z.of_nat (length recent) = lookback /\
     recent
     = take (Z.to_nat lookback)
         (drop (length df_h1 - Z.to_nat lookback - 1) df_h1) /\
     last df_h1 = Some newest /\
     prev_high = pd.max (map high recent) /\
     prev_low = pd.min (map low recent) /\
     (pd.dropna (map high recent) <> [] ->
      is_max_of prev_high (pd.dropna (map high recent))) /\
     (pd.dropna (map low recent) <> [] ->
      is_min_of prev_low (pd.dropna (map low recent))) /\
     (Exists (fun x => PrimFloat.is_nan x = false) (map high recent) ->
      PrimFloat.is_nan prev_high = false /\ In prev_high (map high recent) /\
      forall x, In x (map high recent) -> PrimFloat.is_nan x = false ->
                (x <=? prev_high)%float = true) /\
     (Forall (fun x => PrimFloat.is_nan x = true) (map high recent) ->
      prev_high = nan) /\
     (Exists (fun x => PrimFloat.is_nan x = false) (map low recent) ->
      PrimFloat.is_nan prev_low = false /\ In prev_low (map low recent) /\
      forall x, In x (map low recent) -> PrimFloat.is_nan x = false ->
                (prev_low <=? x)%float = true) /\
     (Forall (fun x => PrimFloat.is_nan x = true) (map low recent) ->
      prev_low = nan) /\
     detect_minor_sr_breach df_h1 lookback = Ok res /\
     res = (if (prev_high * (1 + 0.0005) <? high newest)%float
            then (Some resistance, Some prev_high,
                  (high newest - prev_high)%float)
            else if (low newest <? prev_low * (1 - 0.0005))%float
                 then (Some support, Some prev_low,
                       (prev_low - low newest)%float)
                 else (None, None, 0%float)) /\
     (fst (fst res) = Some resistance <->
      (prev_high * (1 + 0.0005) <? high newest)%float = true) /\
     (fst (fst res) = Some resistance -> snd (fst res) = Some prev_high)).
Proof.
  intros HL. split.
  - intros Hshort. unfold detect_minor_sr_breach.
    now destruct (Z.ltb_spec (Z.of_nat (length df_h1)) (lookback + 2)); [|lia].
  - intros Hlong.
    destruct (reference_window df_h1 lookback HL) as (older & b & Hsplit & Hlen & Hidx);
      [lia|].
    assert (Hrecent : py_slice df_h1 (- lookback - 1) (-1)
                      = take (Z.to_nat lookback)
                          (drop (length df_h1 - Z.to_nat lookback - 1) df_h1))
      by (apply py_slice_before_last; lia).
    set (recent := py_slice df_h1 (- lookback - 1) (-1)) in *.
    exists older, recent, b, (pd.max (map high recent)),
      (pd.min (map low recent)).
    rewrite (detect_minor_sr_breach_long df_h1 lookback b Hlong Hidx).
    fold recent.
    eexists. split; [exact Hsplit|]. split; [exact Hlen|].
    split; [exact Hrecent|].
    split.
    { destruct (py_index_last_nonempty df_h1) as (b' & Hl & Hb'); [lia|].
      rewrite Hl. congruence. }
    split; [reflexivity|]. split; [reflexivity|].
    split; [apply pd_max_is_max|]. split; [apply pd_min_is_min|].
    split; [apply pd_max_greatest|]. split; [apply pd_max_greatest|].
    split; [apply pd_min_least|]. split; [apply pd_min_least|].
    split; [reflexivity|].
    change (1 + 0.0005)%float with (1 + small_pct)%float.
    change (1 - 0.0005)%float with (1 - small_pct)%float.
    split; [reflexivity|].
    destruct (pd.max (map high recent) * (1 + small_pct) <? high b)%float.
    + simpl. repeat split; reflexivity.
    + destruct (low b <? pd.min (map low recent) * (1 - small_pct))%float;
        simpl; (split; [split; discriminate | discriminate]).
Qed.

(** On three quiet bars and a wide one, with a lookback of 2: the window is
    the second and third bar, its greatest high is 101 and its least low 99,
    and the newest bar, whose high is 110, is a resistance breach of 9. *)
Lemma detect_minor_sr_breach_spec_witness :
  0 <= 2 /\
  exists older recent newest prev_high prev_low,
    wide_last_bar = older ++ recent ++ [newest] /\
    recent = [sample_bar 3600 99 101 100; sample_bar 7200 99 101 100]%float /\
    newest = sample_bar 10800 90 110 100 /\
    prev_high = 101%float /\
    prev_low = 99%float /\
    detect_minor_sr_breach wide_last_bar 2
    = Ok (Some resistance, Some prev_high, 9%float).
Proof.
  split; [lia|].
  destruct (detect_minor_sr_breach_spec wide_last_bar 2) as [_ Hlong]; [lia|].
  destruct Hlong
    as (older & recent & newest & ph & pl & res & Hsplit & _ & Hrecent & Hlast
        & Hph & Hpl & _ & _ & _ & _ & _ & _ & Hres & Hval & _);
    [vm_compute; discriminate|].
  exists older, recent, newest, ph, pl.
  assert (Er : recent
               = [sample_bar 3600 99 101 100; sample_bar 7200 99 101 100]%float)
    by (rewrite Hrecent; reflexivity).
  assert (El : newest = sample_bar 10800 90 110 100).
  { change (last wide_last_bar) with (Some (sample_bar 10800 90 110 100))
      in Hlast.
    symmetry. exact (f_equal (default newest) Hlast). }
  assert (Eh : ph = 101%float) by (rewrite Hph, Er; reflexivity).
  assert (Elo : pl = 99%float) by (rewrite Hpl, Er; reflexivity).
  split; [assumption|]. split; [assumption|]. split; [assumption|].
  split; [assumption|]. split; [assumption|].
  rewrite Hres, Hval, El, Eh, Elo. reflexivity.
Defined.

(** C6: a call returns one verdict, and when the newest bar leaves the
    reference window on both sides (its high above [prev_high] and its low
    below [prev_low], each by more than the tolerance) the verdict is a
    resistance breach: resistance is tested first. *)
Theorem detect_minor_sr_breach_tie (df_h1 : list bar) (lookback : Z)
    (last : bar) :
  let recent := py_slice df_h1 (- lookback - 1) (-1) in
  let prev_high := pd.max (map high recent) in
  let prev_low := pd.min (map low recent) in
  lookback + 2 <= Z.of_nat (length df_h1) ->
  py_index df_h1 (-1) = Ok last ->
  (prev_high * (1 + small_pct) <? high last)%float = true ->
  (low last <? prev_low * (1 - small_pct))%float = true ->
  exists res,
    detect_minor_sr_breach df_h1 lookback = Ok res /\
    fst (fst res) = Some resistance /\
    fst (fst res) <> Some support /\
    snd (fst res) = Some prev_high.
Proof.
  intros recent prev_high prev_low Hn Hlast Hhigh Hlow.
  rewrite (detect_minor_sr_breach_long df_h1 lookback last Hn Hlast).
  fold recent. fold prev_high. rewrite Hhigh.
  eexists. split; [reflexivity|].
  simpl. repeat split. discriminate.
Qed.

Lemma detect_minor_sr_breach_tie_witness :
  2 + 2 <= Z.of_nat (length wide_last_bar) /\
  py_index wide_last_bar (-1) = Ok (sample_bar 10800 90 110 100) /\
  (pd.max (map high (py_slice wide_last_bar (- 2 - 1) (-1)))
   * (1 + small_pct) <? 110)%float = true /\
  (90 <? pd.min (map low (py_slice wide_last_bar (- 2 - 1) (-1)))
         * (1 - small_pct))%float = true /\
  exists res,
    detect_minor_sr_breach wide_last_bar 2 = Ok res /\
    fst (fst res) = Some resistance /\
    fst (fst res) <> Some support /\
    snd (fst res) = Some (pd.max (map high (py_slice wide_last_bar (- 2 - 1) (-1)))).
Proof.
  split; [simpl; lia|]. split; [reflexivity|].
  split; [reflexivity|]. split; [reflexivity|].
  apply (detect_minor_sr_breach_tie wide_last_bar 2
           (sample_bar 10800 90 110 100));
    [simpl; lia | reflexivity | reflexivity | reflexivity].
Defined.

(** ** The fast stage *)

Lemma py_index_last_or_nan (col : list float) :
  (0 < length col)%nat -> py_index col (-1) = Ok (last_or_nan col).
Proof.
  intros Hn. destruct (py_index_last_nonempty col Hn) as (x & Hl & Hi).
  unfold last_or_nan. now rewrite Hl.
Qed.

Lemma fetch_ohlc_Some answer df :
  fetch_ohlc answer = Some df -> answer = Some df /\ (0 < length df)%nat.
Proof.
  unfold fetch_ohlc. destruct answer as [r|]; [|discriminate].
  destruct (Z.eqb_spec (Z.of_nat (length r)) 0); [discriminate|].
  intros [= ->]. split; [reflexivity | lia].
Qed.

Section MonitorProofs.
Context `{Lib}.

Lemma rolling_mean_length s window :
  length (rolling_mean s window) = length s.
Proof. unfold rolling_mean. apply length_imap. Qed.

(** A rolling mean is absent at every index below [window - 1]. *)
Lemma rolling_mean_warmup s window i :
  (i < length s)%nat -> Z.of_nat i + 1 < window ->
  rolling_mean s window !! i = Some nan.
Proof.
  intros Hi Hw. unfold rolling_mean. rewrite list_lookup_imap.
  destruct (lookup_lt_is_Some_2 s i Hi) as [x ->]. simpl.
  now destruct (Z.ltb_spec (Z.of_nat i + 1) window); [|lia].
Qed.

Lemma rolling_mean_short s window :
  Z.of_nat (length s) < window ->
  Forall (fun v => v = nan) (rolling_mean s window).
Proof.
  intros Hs. apply Forall_lookup_2. intros i v Hv.
  assert (Hi : (i < length s)%nat).
  { rewrite <- (rolling_mean_length s window). eapply lookup_lt_Some, Hv. }
  rewrite rolling_mean_warmup in Hv by lia. congruence.
Qed.

(** The fast stage never raises; it writes and notifies exactly when it
    confirms. *)
Lemma monitor_m15_run answer s :
  monitor_m15 answer s
  = (Ok tt,
     if m15_confirmed answer then confirm s else s,
     EvFetch (symbol s) TIMEFRAME_M15 M15_LOOKBACK
     :: if m15_confirmed answer
        then [EvNotify (symbol s) "M15" "Retrace confirmed, ALL conditions met!"]
        else []).
Proof.
  unfold monitor_m15, m15_confirmed.
  destruct (fetch_ohlc answer) as [df|] eqn:F.
  - destruct (fetch_ohlc_Some _ _ F) as [_ Hn].
    destruct (py_index_last_nonempty df Hn) as (b & Hl & Hb).
    unfold mbind, get, emit, lift, mret, modify, notify.
    cbn -[np.isnan_any sma_side_ok not_out_bands touched_ema].
    rewrite Hb, Hl.
    cbn -[np.isnan_any sma_side_ok not_out_bands touched_ema].
    rewrite !py_index_last_or_nan
      by (rewrite ?ewm_mean_length, ?rolling_mean_length,
            ?bollinger_hband_length, ?bollinger_lband_length, ?length_map;
          exact Hn).
    destruct (np.isnan_any _); [reflexivity|].
    destruct (sma_side_ok _ _); [|reflexivity].
    destruct (not_out_bands _ _ _); [|reflexivity].
    destruct (touched_ema _ _); reflexivity.
  - reflexivity.
Qed.

(** ** The slow stage *)

Lemma fisher_transform_ok price period :
  1 <= period ->
  exists out, fisher_transform price period = Ok out /\
              length out = length price.
Proof.
  intros Hp.
  destruct (fisher_after_inv price period (length price) Hp)
    as (st & Hst & _ & Lo & _); [lia|].
  exists (fisher st). unfold fisher_transform. now rewrite Hst.
Qed.

Lemma detect_minor_sr_breach_ok df lookback :
  (0 < length df)%nat ->
  exists res, detect_minor_sr_breach df lookback = Ok res.
Proof.
  intros Hn. destruct (py_index_last_nonempty df Hn) as (b & _ & Hb).
  unfold detect_minor_sr_breach. rewrite Hb. unfold rbind.
  destruct (_ <? _); [eauto|].
  destruct (_ <? _)%float; [eauto|].
  destruct (_ <? _)%float; eauto.
Qed.

(** On a frame with at least one bar the gates are computed without an
    exception. *)
Lemma slow_gates_ok df :
  (0 < length df)%nat -> exists g, slow_gates df = Ok g.
Proof.
  intros Hn. unfold slow_gates, compute_h1_indicators.
  destruct (fisher_transform_ok (map close df) FISHER_PERIOD)
    as (out & -> & Hout); [unfold FISHER_PERIOD; lia|].
  rewrite length_map in Hout.
  destruct (detect_minor_sr_breach_ok df SR_LOOKBACK Hn) as [res ->].
  destruct (py_index_last_nonempty df Hn) as (b & _ & Hb).
  cbn -[py_index]. rewrite Hb. cbn -[py_index].
  rewrite !py_index_last_or_nan
    by (rewrite ?ta_rsi_length, ?length_map, ?Hout; exact Hn).
  cbn. eauto.
Qed.

Lemma symbol_apply_gates g s : symbol (apply_gates g s) = symbol s.
Proof. reflexivity. Qed.

Lemma monitor_body_data a s df g :
  fetch_ohlc (h1_answer a) = Some df ->
  slow_gates df = Ok g ->
  monitor_body a s
  = (Ok tt,
     (if all_gates g && m15_confirmed (m15_answer a)
      then confirm (apply_gates g s) else apply_gates g s),
     h1_trace (symbol s) (all_gates g) (m15_confirmed (m15_answer a))).
Proof.
  intros F G. unfold monitor_body. rewrite F.
  unfold slow_gates in G.
  destruct (compute_h1_indicators df) as [hin|e] eqn:E1; [|discriminate].
  destruct (detect_minor_sr_breach df SR_LOOKBACK) as [found|e] eqn:E2;
    [|discriminate].
  cbn -[py_index] in G.
  destruct (py_index (h1_bars hin) (-1)) as [last_h1|e] eqn:E3;
    [|discriminate].
  cbn -[py_index] in G.
  destruct (py_index (rsi hin) (-1)) as [last_rsi|e] eqn:E4; [|discriminate].
  cbn -[py_index] in G.
  destruct (py_index (fisher_col hin) (-1)) as [last_fisher|e] eqn:E5;
    [|discriminate].
  cbn in G. injection G as <-.
  unfold mbind, get, emit, lift, mret, modify, notify, log.
  cbn -[monitor_m15 m15_confirmed py_index].
  rewrite E3. cbn -[monitor_m15 m15_confirmed py_index].
  rewrite E4. cbn -[monitor_m15 m15_confirmed py_index].
  rewrite E5. cbn -[monitor_m15 m15_confirmed py_index].
  unfold all_gates, h1_trace. cbn -[monitor_m15 m15_confirmed].
  destruct (bool_decide (fst (fst found) <> None));
    cbn -[monitor_m15 m15_confirmed]; [|reflexivity].
  destruct (_ <=? _)%float; cbn -[monitor_m15 m15_confirmed];
    [|reflexivity].
  destruct (last_rsi <? 50)%float; cbn -[monitor_m15 m15_confirmed];
    [|reflexivity].
  destruct (time_window _); cbn -[monitor_m15 m15_confirmed];
    [|reflexivity].
  rewrite monitor_m15_run. cbn -[m15_confirmed].
  destruct (m15_confirmed (m15_answer a)); reflexivity.
Qed.

Lemma monitor_body_nodata a s :
  fetch_ohlc (h1_answer a) = None ->
  monitor_body a s = (Ok tt, s, nodata_trace (symbol s)).
Proof. intros F. unfold monitor_body. now rewrite F. Qed.

(** A pass of the loop, by cases on the terminal's answer; the handler of
    the [try] is never entered. *)
Lemma monitor_cycle_cases a s :
  (fetch_ohlc (h1_answer a) = None /\
   monitor_cycle a s = (Ok tt, s, nodata_trace (symbol s)))
  \/
  (exists df g,
     fetch_ohlc (h1_answer a) = Some df /\
     slow_gates df = Ok g /\
     monitor_cycle a s
     = (Ok tt,
        (if all_gates g && m15_confirmed (m15_answer a)
         then confirm (apply_gates g s) else apply_gates g s),
        h1_trace (symbol s) (all_gates g) (m15_confirmed (m15_answer a)))).
Proof.
  unfold monitor_cycle, try_except.
  destruct (fetch_ohlc (h1_answer a)) as [df|] eqn:F.
  - right. destruct (fetch_ohlc_Some _ _ F) as [_ Hn].
    destruct (slow_gates_ok df Hn) as [g G].
    exists df, g. split; [reflexivity|]. split; [assumption|].
    now rewrite (monitor_body_data a s df g F G).
  - left. split; [reflexivity|].
    now rewrite (monitor_body_nodata a s F).
Qed.

Lemma h1_triggered_data a df g :
  fetch_ohlc (h1_answer a) = Some df -> slow_gates df = Ok g ->
  h1_triggered a = all_gates g.
Proof. intros F G. unfold h1_triggered. now rewrite F, G. Qed.

Lemma h1_triggered_nodata a :
  fetch_ohlc (h1_answer a) = None -> h1_triggered a = false.
Proof. intros F. unfold h1_triggered. now rewrite F. Qed.

(** The pass in closed form. *)
Lemma monitor_cycle_run a s :
  exists s',
    monitor_cycle a s = (Ok tt, s', cycle_trace a (symbol s)) /\
    symbol s' = symbol s /\
    m15_retrace_ok s' = m15_retrace_ok s /\
    (forall i, (3 <= i)%nat ->
       vars s' !! i
       = if h1_triggered a && m15_confirmed (m15_answer a)
         then vars (confirm s) !! i else vars s !! i).
Proof.
  unfold cycle_trace.
  destruct (monitor_cycle_cases a s) as [[F ->] | (df & g & F & G & ->)].
  - exists s. rewrite F, (h1_triggered_nodata a F). simpl. auto.
  - rewrite F, (h1_triggered_data a df g F G).
    eexists. split; [reflexivity|].
    destruct (all_gates g && m15_confirmed (m15_answer a)) eqn:E.
    + repeat split. intros i Hi. unfold confirm, apply_gates. simpl.
      destruct (decide (i = 4%nat)) as [->|N4];
        [now rewrite !lookup_insert_eq|].
      rewrite !(lookup_insert_ne _ 4%nat) by congruence.
      destruct (decide (i = 3%nat)) as [->|N3];
        [now rewrite !lookup_insert_eq|].
      rewrite !(lookup_insert_ne _ 3%nat) by congruence.
      now rewrite !lookup_insert_ne by lia.
    + repeat split. intros i Hi. unfold apply_gates. simpl.
      now rewrite !lookup_insert_ne by lia.
Qed.

Lemma monitor_loop_cons a rest s s' :
  monitor_cycle a s = (Ok tt, s', cycle_trace a (symbol s)) ->
  monitor_loop (a :: rest) s
  = (outcome_of (monitor_loop rest s'),
     state_after (monitor_loop rest s'),
     cycle_trace a (symbol s) ++ trace_of (monitor_loop rest s')).
Proof.
  intros E. simpl. unfold mbind. rewrite E.
  now destruct (monitor_loop rest s') as [[r s''] tr].
Qed.

Lemma count_if_app {A} (p : A -> bool) l1 l2 :
  count_if p (l1 ++ l2) = (count_if p l1 + count_if p l2)%nat.
Proof. induction l1 as [|x l1 IH]; simpl; [reflexivity | rewrite IH; lia]. Qed.

Lemma cycle_trace_invocations a sym :
  m15_invocations (cycle_trace a sym) = if h1_triggered a then 1%nat else 0%nat.
Proof.
  unfold cycle_trace, h1_trace, nodata_trace, h1_triggered.
  destruct (fetch_ohlc (h1_answer a)) as [df|]; [|reflexivity].
  destruct (slow_gates df) as [g|e]; [|reflexivity].
  destruct (all_gates g); [|reflexivity].
  now destruct (m15_confirmed (m15_answer a)).
Qed.

Lemma cycle_trace_h1_notifications a sym :
  notifications "H1" (cycle_trace a sym)
  = if h1_triggered a then 1%nat else 0%nat.
Proof.
  unfold cycle_trace, h1_trace, nodata_trace, h1_triggered.
  destruct (fetch_ohlc (h1_answer a)) as [df|]; [|reflexivity].
  destruct (slow_gates df) as [g|e]; [|reflexivity].
  destruct (all_gates g); [|reflexivity].
  now destruct (m15_confirmed (m15_answer a)).
Qed.

Lemma cycle_trace_m15_notifications a sym :
  notifications "M15" (cycle_trace a sym)
  = if h1_triggered a && m15_confirmed (m15_answer a) then 1%nat else 0%nat.
Proof.
  unfold cycle_trace, h1_trace, nodata_trace, h1_triggered.
  destruct (fetch_ohlc (h1_answer a)) as [df|]; [|reflexivity].
  destruct (slow_gates df) as [g|e]; [|reflexivity].
  destruct (all_gates g); [|reflexivity].
  now destruct (m15_confirmed (m15_answer a)).
Qed.

End MonitorProofs.

(** ** What the terminal can answer *)

Lemma spaced_span (d : Z) (t0 : Z) (ts : list Z) (hi : Z) :
  0 <= d -> spaced d (t0 :: ts) -> Forall (fun t => t <= hi) (t0 :: ts) ->
  t0 + d * Z.of_nat (length ts) <= hi.
Proof.
  intros Hd. revert t0. induction ts as [|t1 ts IH]; intros t0 Hsp Hall.
  - inversion Hall; subst. simpl. lia.
  - destruct Hsp as [Hstep Hsp]. inversion Hall as [|? ? _ Hrest]; subst.
    specialize (IH t1 Hsp Hrest).
    rewrite length_cons, Nat2Z.inj_succ. nia.
Qed.

(** A range of [n] periods holds at most [n + 1] bars. *)
Lemma range_answer_length (tf : timeframe) (n : Z) (rates : list bar) :
  0 <= n -> range_answer tf n rates -> Z.of_nat (length rates) <= n + 1.
Proof.
  intros Hn (utc_to & Hsp & Hin).
  assert (Hd : 0 < minutes_per_bar tf * 60) by (destruct tf; simpl; lia).
  destruct rates as [|b rest]; [simpl; lia|].
  unfold fetch_range in Hin. simpl fst in Hin.
  assert (Hhi : Forall (fun t => t <= utc_to) (map time (b :: rest))).
  { apply Forall_map. eapply Forall_impl; [exact Hin|]. simpl. lia. }
  pose proof (spaced_span (minutes_per_bar tf * 60) (time b) (map time rest)
                utc_to (Z.lt_le_incl _ _ Hd) Hsp Hhi) as Hspan.
  inversion Hin as [|? ? Hb _]; subst. simpl in Hb.
  rewrite length_map in Hspan. rewrite length_cons, Nat2Z.inj_succ.
  nia.
Qed.

Lemma forall_nan_last (col : list float) :
  (0 < length col)%nat -> Forall (fun v => v = nan) col ->
  last col = Some nan.
Proof.
  intros Hn Hall. destruct (last col) as [x|] eqn:E.
  - rewrite Forall_forall in Hall. f_equal. apply Hall.
    apply last_Some in E as [l' ->]. apply elem_of_app. right.
    apply list_elem_of_singleton. reflexivity.
  - apply last_None in E. subst. simpl in Hn. lia.
Qed.

Lemma isnan_any_of_nan (vs : list float) :
  Exists (fun v => v = nan) vs -> np.isnan_any vs = true.
Proof.
  unfold np.isnan_any. induction 1 as [v vs -> | v vs _ IH]; simpl.
  - reflexivity.
  - rewrite IH. apply orb_true_r.
Qed.

Section FastStageProofs.
Context `{Lib}.

(** An undefined indicator at the newest bar keeps the stage from
    confirming. *)
Lemma m15_confirmed_undefined answer df :
  fetch_ohlc answer = Some df ->
  Exists (fun col => last col = Some nan)
    [ema50 (compute_m15_indicators df); sma200 (compute_m15_indicators df);
     sma400 (compute_m15_indicators df); bb_h (compute_m15_indicators df);
     bb_l (compute_m15_indicators df)] ->
  m15_confirmed answer = false.
Proof.
  intros F Hex. unfold m15_confirmed. rewrite F.
  cbv zeta.
  rewrite isnan_any_of_nan; [reflexivity|].
  unfold last_or_nan.
  repeat (apply Exists_cons in Hex as [-> | Hex];
          [repeat (first [left; reflexivity | right]) |]).
  inversion Hex.
Qed.

Lemma m15_confirmed_short rates :
  Z.of_nat (length rates) < SMA400_PERIOD ->
  m15_confirmed (Some rates) = false.
Proof.
  intros Hlen. destruct (fetch_ohlc (Some rates)) as [df|] eqn:F.
  - destruct (fetch_ohlc_Some _ _ F) as [[= <-] Hn].
    apply (m15_confirmed_undefined _ rates F).
    right. right. left. apply forall_nan_last.
    + simpl. now rewrite rolling_mean_length, length_map.
    + simpl. apply rolling_mean_short. now rewrite length_map.
  - unfold m15_confirmed. now rewrite F.
Qed.

Lemma sma400_unreachable rates :
  range_answer TIMEFRAME_M15 M15_LOOKBACK rates ->
  Z.of_nat (length rates) < SMA400_PERIOD /\
  m15_confirmed (Some rates) = false.
Proof.
  intros Hr.
  assert (Hlen : Z.of_nat (length rates) < SMA400_PERIOD).
  { assert (H0 : 0 <= M15_LOOKBACK) by (unfold M15_LOOKBACK; lia).
    pose proof (range_answer_length TIMEFRAME_M15 M15_LOOKBACK rates H0 Hr).
    unfold M15_LOOKBACK, SMA400_PERIOD in *. lia. }
  split; [exact Hlen | now apply m15_confirmed_short].
Qed.

End FastStageProofs.

(** ** What the gates of a pass rest on *)

Section FiringExtra.
Context `{Lib}.

(** The gates of a frame, taken apart. *)
Lemma slow_gates_inv df g :
  slow_gates df = Ok g ->
  exists found out newest last_rsi last_fisher,
    detect_minor_sr_breach df SR_LOOKBACK = Ok found /\
    fisher_transform (map close df) FISHER_PERIOD = Ok out /\
    py_index df (-1) = Ok newest /\
    py_index (ta_rsi (map close df) RSI_PERIOD) (-1) = Ok last_rsi /\
    py_index out (-1) = Ok last_fisher /\
    gate_breach g = bool_decide (fst (fst found) <> None) /\
    gate_divergence g
    = (FISHER_RSI_GAP <=? abs (last_rsi - last_fisher))%float /\
    gate_below_midline g = (last_rsi <? 50)%float /\
    gate_time_window g = time_window (hour_of (time newest)).
Proof.
  unfold slow_gates, compute_h1_indicators. intros G.
  destruct (fisher_transform (map close df) FISHER_PERIOD) as [out|e] eqn:E1;
    [|discriminate].
  cbn -[py_index] in G.
  destruct (detect_minor_sr_breach df SR_LOOKBACK) as [found|e] eqn:E2;
    [|discriminate].
  cbn -[py_index] in G.
  destruct (py_index df (-1)) as [b|e] eqn:E3; [|discriminate].
  cbn -[py_index] in G.
  destruct (py_index (ta_rsi (map close df) RSI_PERIOD) (-1)) as [r|e] eqn:E4;
    [|discriminate].
  cbn -[py_index] in G.
  destruct (py_index out (-1)) as [f|e] eqn:E5; [|discriminate].
  cbn in G. injection G as <-.
  exists found, out, b, r, f. repeat split; assumption.
Qed.

Lemma gate_breach_needs_bars df g :
  slow_gates df = Ok g -> gate_breach g = true ->
  SR_LOOKBACK + 2 <= Z.of_nat (length df).
Proof.
  intros G B.
  destruct (slow_gates_inv df g G)
    as (found & out & b & r & f & D & _ & _ & _ & _ & Hb & _).
  rewrite Hb in B. unfold detect_minor_sr_breach in D.
  destruct (Z.ltb_spec (Z.of_nat (length df)) (SR_LOOKBACK + 2)); [|assumption].
  injection D as <-. simpl in B. discriminate B.
Qed.

Lemma m15_confirmed_needs_bars answer :
  m15_confirmed answer = true ->
  exists df, answer = Some df /\ SMA400_PERIOD <= Z.of_nat (length df).
Proof.
  intros C. destruct answer as [df|]; [|discriminate].
  exists df. split; [reflexivity|].
  destruct (Z.le_gt_cases SMA400_PERIOD (Z.of_nat (length df))); [assumption|].
  rewrite m15_confirmed_short in C by lia. discriminate.
Qed.

Lemma h1_triggered_inv a :
  h1_triggered a = true ->
  exists df g,
    fetch_ohlc (h1_answer a) = Some df /\ slow_gates df = Ok g /\
    all_gates g = true.
Proof.
  unfold h1_triggered. intros T.
  destruct (fetch_ohlc (h1_answer a)) as [df|]; [|discriminate].
  destruct (slow_gates df) as [g|e] eqn:G; [|discriminate].
  exists df, g. repeat split; assumption.
Qed.

Lemma all_gates_true g :
  all_gates g = true ->
  gate_breach g = true /\ gate_divergence g = true /\
  gate_below_midline g = true /\ gate_time_window g = true.
Proof.
  unfold all_gates. rewrite !andb_true_iff. tauto.
Qed.

End FiringExtra.

(** ** The frame and its timestamps *)

Lemma to_datetime_Ok (rates df : list bar) :
  to_datetime rates = Ok df <->
  df = rates /\ Forall (fun b => datetime_ok (time b)) rates.
Proof.
  unfold to_datetime.
  assert (E : forallb (fun b => datetime_okb (time b)) rates = true <->
              Forall (fun b => datetime_ok (time b)) rates).
  { rewrite forallb_forall, Forall_forall. unfold datetime_okb, datetime_ok.
    split; intros Hall b Hb.
    - apply list_elem_of_In in Hb. specialize (Hall b Hb).
      apply andb_true_iff in Hall as [H1 H2].
      apply Z.leb_le in H1. apply Z.leb_le in H2. lia.
    - apply list_elem_of_In in Hb. specialize (Hall b Hb).
      apply andb_true_iff. rewrite !Z.leb_le. lia. }
  destruct (forallb _ rates).
  - split; [intros [= <-]; split; [reflexivity | now apply E]|].
    now intros [-> _].
  - split; [discriminate|]. intros [_ Hall]. apply E in Hall. discriminate.
Qed.

(** When the frame is built, it is the frame of [fetch_ohlc]. *)
Lemma fetch_ohlc_frame_Ok (answer : option (list bar)) (r : option (list bar)) :
  fetch_ohlc_frame answer = Ok r -> fetch_ohlc answer = r.
Proof.
  unfold fetch_ohlc_frame, fetch_ohlc. destruct answer as [rates|].
  - destruct (Z.of_nat (length rates) =? 0); [now intros [= <-]|].
    destruct (to_datetime rates) as [df|e] eqn:E; [|discriminate].
    apply to_datetime_Ok in E as [-> _]. now intros [= <-].
  - now intros [= <-].
Qed.

(** ** The checklist monitor: the stated properties *)

(** C3: the M15 request covers [M15_LOOKBACK = 200] periods, so the terminal
    answers with fewer bars than the [SMA400_PERIOD = 400] of the long
    average; that average is then undefined at every index, the guard of the
    fast stage returns early, and the stage neither writes a checkbox nor
    notifies. *)
Theorem sma400_never_defined `{Lib} (rates : list bar) :
  range_answer TIMEFRAME_M15 M15_LOOKBACK rates ->
  Z.of_nat (length rates) < SMA400_PERIOD /\
  Forall (fun v => v = nan) (sma400 (compute_m15_indicators rates)) /\
  m15_confirmed (Some rates) = false /\
  forall s,
    monitor_m15 (Some rates) s
    = (Ok tt, s, [EvFetch (symbol s) TIMEFRAME_M15 M15_LOOKBACK]).
Proof.
  intros Hr.
  assert (Hlen : Z.of_nat (length rates) < SMA400_PERIOD).
  { assert (H0 : 0 <= M15_LOOKBACK) by (unfold M15_LOOKBACK; lia).
    pose proof (range_answer_length TIMEFRAME_M15 M15_LOOKBACK rates H0 Hr).
    unfold M15_LOOKBACK, SMA400_PERIOD in *. lia. }
  split; [exact Hlen|]. split; [|split].
  - simpl. apply rolling_mean_short. now rewrite length_map.
  - now apply m15_confirmed_short.
  - intros s. rewrite monitor_m15_run.
    now rewrite m15_confirmed_short.
Qed.

Lemma two_m15_in_range : range_answer TIMEFRAME_M15 M15_LOOKBACK two_m15.
Proof.
  exists 1000. split.
  - simpl. lia.
  - unfold two_m15, fetch_range, M15_LOOKBACK. simpl.
    repeat constructor; simpl; lia.
Defined.

Lemma sma400_never_defined_witness :
  range_answer TIMEFRAME_M15 M15_LOOKBACK two_m15 /\
  Z.of_nat (length two_m15) < SMA400_PERIOD /\
  Forall (fun v => v = nan) (sma400 (compute_m15_indicators two_m15)) /\
  m15_confirmed (Some two_m15) = false /\
  forall s,
    monitor_m15 (Some two_m15) s
    = (Ok tt, s, [EvFetch (symbol s) TIMEFRAME_M15 M15_LOOKBACK]).
Proof.
  split; [exact two_m15_in_range|].
  apply (sma400_never_defined two_m15). exact two_m15_in_range.
Defined.

(** Over any number of passes whose M15 answers come from the shipped
    request, the two fast-stage checkboxes keep their values and the final
    notification is not in the trace. *)
Lemma fast_stage_never_confirms `{Lib} (ans : list answers) (s : monitor) :
  Forall shipped_answers ans ->
  notifications "M15" (trace_of (monitor_loop ans s)) = 0%nat /\
  vars (state_after (monitor_loop ans s)) !! 3%nat = vars s !! 3%nat /\
  vars (state_after (monitor_loop ans s)) !! 4%nat = vars s !! 4%nat.
Proof.
  intros Hall. revert s. induction Hall as [|a rest Ha _ IH]; intros s.
  - repeat split.
  - destruct (monitor_cycle_run a s) as (s' & E & Hsym & _ & Hvars).
    rewrite (monitor_loop_cons a rest s s' E).
    unfold state_after, trace_of. simpl.
    assert (Hc : m15_confirmed (m15_answer a) = false).
    { destruct (m15_answer a) as [rates|] eqn:Em; [|reflexivity].
      destruct (sma400_unreachable rates (Ha rates Em)) as [_ Hc]. exact Hc. }
    destruct (IH s') as (N & V3 & V4).
    unfold notifications in *. rewrite count_if_app.
    fold (notifications "M15" (cycle_trace a (symbol s))).
    rewrite cycle_trace_m15_notifications, Hc, andb_false_r.
    unfold trace_of, state_after in *. rewrite N, V3, V4.
    rewrite !Hvars by lia. rewrite Hc, andb_false_r. repeat split.
Qed.

(** Two passes by themselves, for every library: a pass over the breakout
    bars sets the breach gate, a pass without H1 bars leaves the monitor as
    it found it, and a pass over the quiet bars does not hand over to the
    fast stage. *)
Lemma breakout_pass_breached `{Lib} (s : monitor) :
  h1_sr_breached (state_after (monitor_cycle breakout_cycle s)) = true.
Proof.
  destruct (monitor_cycle_cases breakout_cycle s)
    as [[F _] | (df & g & F & G & E)].
  - assert (F' : fetch_ohlc (h1_answer breakout_cycle) = Some breakout_h1)
      by reflexivity.
    rewrite F' in F. discriminate F.
  - assert (F' : fetch_ohlc (h1_answer breakout_cycle) = Some breakout_h1)
      by reflexivity.
    rewrite F' in F. injection F as <-.
    destruct (slow_gates_inv breakout_h1 g G)
      as (found & out & b & r & f & D & _ & _ & _ & _ & Hb & _).
    assert (D' : detect_minor_sr_breach breakout_h1 SR_LOOKBACK
                 = Ok (Some resistance, Some 101%float, 1%float))
      by (vm_compute; reflexivity).
    assert (K : fst (fst found) = Some resistance).
    { rewrite D' in D.
      exact (f_equal (fun x => match x with
                               | Ok v => fst (fst v)
                               | Raise _ => None
                               end) (eq_sym D)). }
    rewrite K in Hb. simpl in Hb.
    rewrite E. unfold state_after. cbn [fst snd].
    destruct (all_gates g && m15_confirmed (m15_answer breakout_cycle));
      exact Hb.
Qed.

Lemma nodata_pass `{Lib} (s : monitor) :
  state_after (monitor_cycle nodata_cycle s) = s.
Proof.
  destruct (monitor_cycle_cases nodata_cycle s)
    as [[_ E] | (df & g & F & _)].
  - now rewrite E.
  - assert (F' : fetch_ohlc (h1_answer nodata_cycle) = None) by reflexivity.
    rewrite F' in F. discriminate F.
Qed.

Lemma quiet_pass_not_triggered `{Lib} : h1_triggered quiet_cycle = false.
Proof.
  destruct (h1_triggered quiet_cycle) eqn:T; [|reflexivity].
  destruct (h1_triggered_inv quiet_cycle T) as (df & g & F & G & A).
  assert (F' : fetch_ohlc (h1_answer quiet_cycle) = Some quiet_h1)
    by reflexivity.
  rewrite F' in F. injection F as <-.
  destruct (all_gates_true g A) as (B & _).
  pose proof (gate_breach_needs_bars quiet_h1 g G B) as Hlen.
  unfold quiet_h1, SR_LOOKBACK in Hlen.
  rewrite length_map, length_seq in Hlen. lia.
Qed.

Lemma quiet_pass_keeps_fast_checkboxes `{Lib} (s : monitor) (i : nat) :
  (3 <= i)%nat ->
  vars (state_after (monitor_cycle quiet_cycle s)) !! i = vars s !! i.
Proof.
  intros Hi.
  destruct (monitor_cycle_run quiet_cycle s) as (s' & E & _ & _ & V).
  rewrite E. unfold state_after. cbn [fst snd].
  rewrite V by assumption.
  now rewrite quiet_pass_not_triggered.
Qed.

Lemma checklist_eq_fields (s1 s2 : monitor) :
  checklist s1 = checklist s2 ->
  h1_sr_breached s1 = h1_sr_breached s2 /\
  vars s1 !! 3%nat = vars s2 !! 3%nat.
Proof.
  unfold checklist. intros E. split.
  - exact (f_equal (fun c => fst (fst (fst (fst (fst c))))) E).
  - exact (f_equal (fun c => snd (fst c)) E).
Qed.




(** C7: a pass enters the fast stage at most once; it enters it exactly when
    it got H1 bars and the four gates computed from them all hold, and the
    gates it tests are the ones it has just written.  One false gate keeps the
    pass out of the fast stage, and so does a pass without H1 bars. *)
Theorem fast_stage_iff_all_gates `{Lib} (a : answers) (s : monitor) :
  (m15_invocations (trace_of (monitor_cycle a s)) <= 1)%nat /\
  (fetch_ohlc (h1_answer a) = None ->
   m15_invocations (trace_of (monitor_cycle a s)) = 0%nat) /\
  (forall df_h1,
     fetch_ohlc (h1_answer a) = Some df_h1 ->
     exists g,
       slow_gates df_h1 = Ok g /\
       (h1_sr_breached (state_after (monitor_cycle a s)),
        h1_left_fisher (state_after (monitor_cycle a s)),
        h1_last_close_below_50 (state_after (monitor_cycle a s)),
        h1_time_ok (state_after (monitor_cycle a s)))
       = (gate_breach g, gate_divergence g, gate_below_midline g,
          gate_time_window g) /\
       (m15_invocations (trace_of (monitor_cycle a s)) = 1%nat <->
        gate_breach g = true /\ gate_divergence g = true /\
        gate_below_midline g = true /\ gate_time_window g = true) /\
       (m15_invocations (trace_of (monitor_cycle a s)) = 0%nat <->
        gate_breach g = false \/ gate_divergence g = false \/
        gate_below_midline g = false \/ gate_time_window g = false)).
Proof.
  destruct (monitor_cycle_run a s) as (s' & E & _).
  pose proof (cycle_trace_invocations a (symbol s)) as Hinv.
  rewrite E. unfold trace_of, state_after. simpl.
  split; [rewrite Hinv; destruct (h1_triggered a); lia|].
  split.
  - intros F. rewrite Hinv, (h1_triggered_nodata a F). reflexivity.
  - intros df F.
    destruct (monitor_cycle_cases a s) as [[F' _] | (df' & g & F' & G & E')];
      [congruence|].
    rewrite F in F'. injection F' as <-.
    exists g. split; [assumption|].
    rewrite E in E'. injection E' as -> _.
    rewrite Hinv, (h1_triggered_data a df g F G). unfold all_gates.
    split; [|split].
    + destruct (_ && m15_confirmed _); reflexivity.
    + destruct (gate_breach g), (gate_divergence g), (gate_below_midline g),
        (gate_time_window g); simpl; split; intros; try discriminate;
        intuition discriminate.
    + destruct (gate_breach g), (gate_divergence g), (gate_below_midline g),
        (gate_time_window g); simpl; split; intros; try discriminate;
        intuition discriminate.
Qed.

(** The breakout bars pass all four gates, and the pass enters the fast
    stage once; the quiet bars fail the breach gate, and it does not. *)
Lemma fast_stage_entered_on_breakout :
  slow_gates breakout_h1 = Ok (Gates true true true true) /\
  m15_invocations (trace_of (monitor_cycle breakout_cycle (monitor_init "EURUSD")))
  = 1%nat /\
  slow_gates quiet_h1 = Ok (Gates false true true true) /\
  m15_invocations (trace_of (monitor_cycle quiet_cycle (monitor_init "EURUSD")))
  = 0%nat.
Proof. repeat split; vm_compute; reflexivity. Qed.

(** C8: when one of the five indicator values of the newest M15 bar is
    undefined, the fast stage returns without an exception, leaves every
    field of the monitor as it was and causes no event but its request for
    bars: no notification. *)
Theorem monitor_m15_undefined `{Lib} (answer : option (list bar))
    (df_m15 : list bar) (s : monitor) :
  fetch_ohlc answer = Some df_m15 ->
  Exists (fun col => last col = Some nan)
    [ema50 (compute_m15_indicators df_m15);
     sma200 (compute_m15_indicators df_m15);
     sma400 (compute_m15_indicators df_m15);
     bb_h (compute_m15_indicators df_m15);
     bb_l (compute_m15_indicators df_m15)] ->
  monitor_m15 answer s
  = (Ok tt, s, [EvFetch (symbol s) TIMEFRAME_M15 M15_LOOKBACK]) /\
  notifications "M15" (trace_of (monitor_m15 answer s)) = 0%nat.
Proof.
  intros F Hex. rewrite monitor_m15_run.
  rewrite (m15_confirmed_undefined answer df_m15 F Hex).
  split; reflexivity.
Qed.

Lemma monitor_m15_undefined_witness :
  fetch_ohlc (Some two_m15) = Some two_m15 /\
  Exists (fun col => last col = Some nan)
    [ema50 (compute_m15_indicators two_m15);
     sma200 (compute_m15_indicators two_m15);
     sma400 (compute_m15_indicators two_m15);
     bb_h (compute_m15_indicators two_m15);
     bb_l (compute_m15_indicators two_m15)] /\
  monitor_m15 (Some two_m15) (monitor_init "EURUSD")
  = (Ok tt, monitor_init "EURUSD",
     [EvFetch "EURUSD" TIMEFRAME_M15 M15_LOOKBACK]).
Proof.
  assert (Hex : Exists (fun col => last col = Some nan)
    [ema50 (compute_m15_indicators two_m15);
     sma200 (compute_m15_indicators two_m15);
     sma400 (compute_m15_indicators two_m15);
     bb_h (compute_m15_indicators two_m15);
     bb_l (compute_m15_indicators two_m15)]).
  { apply Exists_cons_tl, Exists_cons_hd. reflexivity. }
  split; [reflexivity|]. split; [exact Hex|].
  apply (monitor_m15_undefined (Some two_m15) two_m15 (monitor_init "EURUSD")
           eq_refl Hex).
Defined.



(** C10: the trace of a pass is fixed by the terminal's answers and the
    symbol; nothing a pass has written enters it.  So over any run of the
    loop the slow-stage notification is emitted once for every pass whose
    four gates hold, and the final notification once for every such pass
    whose fast stage confirms, however many passes before did the same. *)
Theorem notification_every_cycle `{Lib} (ans : list answers) (s : monitor) :
  (forall a s1 s2,
     symbol s1 = symbol s2 ->
     trace_of (monitor_cycle a s1) = trace_of (monitor_cycle a s2)) /\
  outcome_of (monitor_loop ans s) = Ok tt /\
  notifications "H1" (trace_of (monitor_loop ans s))
  = count_if h1_triggered ans /\
  notifications "M15" (trace_of (monitor_loop ans s))
  = count_if (fun a => h1_triggered a && m15_confirmed (m15_answer a)) ans.
Proof.
  split.
  - intros a s1 s2 Hsym.
    destruct (monitor_cycle_run a s1) as (s1' & -> & _).
    destruct (monitor_cycle_run a s2) as (s2' & -> & _).
    unfold trace_of. simpl. now rewrite Hsym.
  - revert s. induction ans as [|a rest IH]; intros s.
    + repeat split.
    + destruct (monitor_cycle_run a s) as (s' & E & _).
      rewrite (monitor_loop_cons a rest s s' E).
      destruct (IH s') as (O & N1 & N2).
      unfold outcome_of, trace_of, notifications in *. simpl fst. simpl snd.
      rewrite !count_if_app, N1, N2. split; [assumption|].
      fold (notifications "H1" (cycle_trace a (symbol s))).
      fold (notifications "M15" (cycle_trace a (symbol s))).
      rewrite cycle_trace_h1_notifications, cycle_trace_m15_notifications.
      split; reflexivity.
Qed.

(** Three passes over the same breakout bars: three slow-stage
    notifications. *)
Lemma notification_repeats_on_breakout :
  h1_triggered breakout_cycle = true /\
  notifications "H1"
    (trace_of (monitor_loop [breakout_cycle; breakout_cycle; breakout_cycle]
                 (monitor_init "EURUSD")))
  = 3%nat.
Proof. split; vm_compute; reflexivity. Qed.

(** * Further properties *)

(** ** The Fisher transform: exceptions, short series, no look-ahead *)

Section FisherExtra.
Context `{Lib}.
Open Scope float_scope.

Lemma py_slice_app_inside {A} (l more : list A) (a b : Z) :
  (0 <= a <= b)%Z -> (b <= Z.of_nat (length l))%Z ->
  py_slice (l ++ more) a b = py_slice l a b.
Proof.
  intros Hab Hb.
  rewrite !py_slice_inside by (rewrite ?length_app; lia).
  rewrite drop_app_le by lia.
  rewrite take_app_le by (rewrite length_drop; lia).
  reflexivity.
Qed.

Lemma raw_update_app price more period prev i :
  (1 <= period)%Z -> (period <= Z.of_nat i)%Z -> (i < length price)%nat ->
  raw_update (price ++ more) period prev i = raw_update price period prev i.
Proof.
  intros Hp Hi Hn. unfold raw_update.
  rewrite py_slice_app_inside by lia.
  unfold at_index. rewrite lookup_app_l by assumption. reflexivity.
Qed.

Lemma raw_at_app price more period i :
  (1 <= period)%Z -> (i < length price)%nat ->
  raw_at (price ++ more) period i = raw_at price period i.
Proof.
  intros Hp. induction i as [|i IH]; intros Hi.
  - rewrite (raw_at_eq (price ++ more) period 0), (raw_at_eq price period 0).
    destruct (Z.ltb_spec (Z.of_nat 0) period); [reflexivity|]. lia.
  - rewrite (raw_at_eq (price ++ more) period (S i)),
      (raw_at_eq price period (S i)).
    destruct (Z.ltb_spec (Z.of_nat (S i)) period); [reflexivity|].
    unfold raw_before. rewrite IH by lia.
    now rewrite raw_update_app by lia.
Qed.

Lemma filt_at_app price more period i :
  (1 <= period)%Z -> (i < length price)%nat ->
  filt_at (price ++ more) period i = filt_at price period i.
Proof.
  intros Hp. induction i as [|i IH]; intros Hi.
  - rewrite (filt_at_eq (price ++ more) period 0), (filt_at_eq price period 0).
    now rewrite raw_at_app.
  - rewrite (filt_at_eq (price ++ more) period (S i)),
      (filt_at_eq price period (S i)).
    rewrite raw_at_app by assumption. rewrite IH by lia. reflexivity.
Qed.

Lemma fisher_transform_lookup price period :
  (1 <= period)%Z ->
  exists out,
    fisher_transform price period = Ok out /\
    length out = length price /\
    forall i, (i < length price)%nat -> out !! i = Some (filt_at price period i).
Proof.
  intros Hp.
  destruct (fisher_after_inv price period (length price) Hp)
    as (st & Hst & _ & Lo & _ & Hout & _); [lia|].
  exists (fisher st). unfold fisher_transform. rewrite Hst.
  repeat split; assumption.
Qed.

End FisherExtra.

(** X1: the transform never looks ahead.  Appending closes to a series
    leaves the values already computed as they were: the output at an index
    depends on the closes up to that index only. *)
Theorem fisher_transform_no_lookahead `{Lib} (price more : list float)
    (period : Z) :
  1 <= period ->
  exists out out',
    fisher_transform price period = Ok out /\
    fisher_transform (price ++ more) period = Ok out' /\
    length out = length price /\
    length out' = (length price + length more)%nat /\
    take (length price) out' = out.
Proof.
  intros Hp.
  destruct (fisher_transform_lookup price period Hp) as (out & E & L & Hl).
  destruct (fisher_transform_lookup (price ++ more) period Hp)
    as (out' & E' & L' & Hl').
  rewrite length_app in L'.
  exists out, out'. repeat split; try assumption.
  apply list_eq. intros i.
  destruct (decide (i < length price)%nat) as [Hi|Hi].
  - rewrite lookup_take_lt by assumption.
    rewrite Hl by assumption.
    rewrite Hl' by (rewrite length_app; lia).
    now rewrite filt_at_app.
  - rewrite lookup_take_ge by lia.
    symmetry. apply lookup_ge_None. lia.
Qed.

Lemma fisher_transform_no_lookahead_witness :
  1 <= 2 /\
  exists out out',
    fisher_transform [1; 2; 3; 4]%float 2 = Ok out /\
    fisher_transform ([1; 2; 3; 4] ++ [2.5; 7])%float 2 = Ok out' /\
    take 4 out' = out.
Proof.
  split; [lia|].
  destruct (fisher_transform_no_lookahead [1; 2; 3; 4]%float [2.5; 7]%float 2)
    as (out & out' & E & E' & _ & _ & T); [lia|].
  exists out, out'. repeat split; assumption.
Defined.

(** X2: the transform raises exactly when the warm-up length is below 1 and
    the series has an entry, and then it raises ValueError (the first window
    is empty); in every other case it returns a series as long as its
    input. *)
Theorem fisher_transform_raises `{Lib} (price : list float) (period : Z) :
  (forall e, fisher_transform price period = Raise e ->
             e = ValueError /\ period <= 0 /\ price <> []) /\
  (period <= 0 -> price <> [] ->
   fisher_transform price period = Raise ValueError) /\
  (1 <= period \/ price = [] ->
   exists out, fisher_transform price period = Ok out /\
               length out = length price).
Proof.
  assert (Hok : 1 <= period \/ price = [] ->
                exists out, fisher_transform price period = Ok out /\
                            length out = length price).
  { intros [Hp | ->].
    - now apply fisher_transform_ok.
    - exists []. split; reflexivity. }
  split; [|split].
  - intros e He.
    destruct (Z.le_gt_cases period 0) as [Hp|Hp].
    + destruct price as [|x price].
      * destruct Hok as (out & E & _); [now right|]. congruence.
      * rewrite fisher_transform_nonpositive_period in He
          by (try assumption; discriminate).
        injection He as <-. repeat split; [assumption | discriminate].
    + destruct Hok as (out & E & _); [left; lia|]. congruence.
  - apply fisher_transform_nonpositive_period.
  - exact Hok.
Qed.

(** X3: a series no longer than the warm-up length gives a series of
    undefined values, without an exception. *)
Theorem fisher_transform_short `{Lib} (price : list float) (period : Z) :
  Z.of_nat (length price) <= period ->
  fisher_transform price period = Ok (replicate (length price) nan).
Proof.
  intros Hn. unfold fisher_transform.
  now rewrite fisher_after_warmup.
Qed.

Lemma fisher_transform_short_witness :
  Z.of_nat (length [1; 2; 3]%float) <= FISHER_PERIOD /\
  fisher_transform [1; 2; 3]%float FISHER_PERIOD = Ok [nan; nan; nan].
Proof.
  split; [vm_compute; discriminate|].
  apply (fisher_transform_short [1; 2; 3]%float FISHER_PERIOD).
  vm_compute; discriminate.
Defined.

(** ** Arithmetic and comparisons on undefined values *)

Lemma ltb_nan (a b : float) :
  PrimFloat.is_nan a = true \/ PrimFloat.is_nan b = true ->
  (a <? b)%float = false.
Proof.
  intros Hn. destruct (a <? b)%float eqn:E; [|reflexivity].
  destruct (FloatOrder.ltb_not_nan _ _ E) as [Ha Hb].
  destruct Hn; congruence.
Qed.

Lemma leb_nan (a b : float) :
  PrimFloat.is_nan a = true \/ PrimFloat.is_nan b = true ->
  (a <=? b)%float = false.
Proof.
  rewrite !FloatOrder.is_nan_spec, leb_spec. unfold SFleb.
  intros [-> | ->]; [reflexivity|].
  now destruct (Prim2SF a).
Qed.

Lemma mul_nan_l (y : float) : (nan * y)%float = nan.
Proof.
  apply FloatOrder.is_nan_nan, FloatOrder.is_nan_spec.
  rewrite mul_spec. reflexivity.
Qed.

Lemma sub_nan (a b : float) :
  PrimFloat.is_nan a = true \/ PrimFloat.is_nan b = true ->
  (a - b)%float = nan.
Proof.
  rewrite !FloatOrder.is_nan_spec. intros Hn.
  apply FloatOrder.is_nan_nan, FloatOrder.is_nan_spec.
  rewrite sub_spec. destruct Hn as [-> | ->]; [reflexivity|].
  now destruct (Prim2SF a).
Qed.

Lemma abs_nan : abs nan = nan.
Proof. reflexivity. Qed.

(** ** The breach detector: the other verdicts, exceptions, locality *)

(** X4: on a frame that is long enough, the verdict is a support breach
    exactly when the resistance test fails and
    [last.low < prev_low * (1 - 0.0005)], and then the reported level is
    [prev_low] and the reported distance [prev_low - last.low]; it is "no
    breach" exactly when both tests fail, and then the result is
    [(None, None, 0.0)]. *)
Theorem detect_minor_sr_breach_support (df_h1 : list bar) (lookback : Z)
    (last : bar) :
  let recent := py_slice df_h1 (- lookback - 1) (-1) in
  let prev_high := pd.max (map high recent) in
  let prev_low := pd.min (map low recent) in
  lookback + 2 <= Z.of_nat (length df_h1) ->
  py_index df_h1 (-1) = Ok last ->
  exists res,
    detect_minor_sr_breach df_h1 lookback = Ok res /\
    (fst (fst res) = Some support <->
     (prev_high * (1 + 0.0005) <? high last)%float = false /\
     (low last <? prev_low * (1 - 0.0005))%float = true) /\
    (fst (fst res) = Some support ->
     res = (Some support, Some prev_low, (prev_low - low last)%float)) /\
    (fst (fst res) = None <->
     (prev_high * (1 + 0.0005) <? high last)%float = false /\
     (low last <? prev_low * (1 - 0.0005))%float = false) /\
    (fst (fst res) = None -> res = (None, None, 0%float)).
Proof.
  intros recent prev_high prev_low Hn Hlast.
  rewrite (detect_minor_sr_breach_long df_h1 lookback last Hn Hlast).
  fold recent. fold prev_high. fold prev_low.
  change (1 + 0.0005)%float with (1 + small_pct)%float.
  change (1 - 0.0005)%float with (1 - small_pct)%float.
  eexists. split; [reflexivity|].
  destruct (prev_high * (1 + small_pct) <? high last)%float;
    [|destruct (low last <? prev_low * (1 - small_pct))%float];
    simpl; repeat split; intros; try discriminate; try tauto;
    intuition discriminate.
Qed.

(** A frame whose newest bar falls below the reference window only. *)
Lemma detect_minor_sr_breach_support_witness :
  2 + 2 <= Z.of_nat (length (quiet_h1 ++ [sample_bar 140400 90 100 95])) /\
  py_index (quiet_h1 ++ [sample_bar 140400 90 100 95]) (-1)
  = Ok (sample_bar 140400 90 100 95) /\
  detect_minor_sr_breach (quiet_h1 ++ [sample_bar 140400 90 100 95]) 2
  = Ok (Some support, Some 99%float, 9%float).
Proof.
  split; [vm_compute; discriminate|]. split; [reflexivity|].
  destruct (detect_minor_sr_breach_support
              (quiet_h1 ++ [sample_bar 140400 90 100 95]) 2
              (sample_bar 140400 90 100 95))
    as (res & E & Hiff & Hval & _); [vm_compute; discriminate | reflexivity |].
  assert (K : fst (fst res) = Some support)
    by (apply Hiff; split; reflexivity).
  rewrite E, (Hval K). vm_compute. reflexivity.
Defined.

(** X5: the detector raises exactly on the empty frame with a lookback
    below -1, and then IndexError (from [iloc[-1]]); on every other input
    it returns a verdict. *)
Theorem detect_minor_sr_breach_raises (df_h1 : list bar) (lookback : Z) :
  (forall e, detect_minor_sr_breach df_h1 lookback = Raise e ->
             e = IndexError /\ df_h1 = [] /\ lookback <= -2) /\
  (lookback <= -2 -> detect_minor_sr_breach [] lookback = Raise IndexError) /\
  (df_h1 <> [] \/ -1 <= lookback ->
   exists res, detect_minor_sr_breach df_h1 lookback = Ok res).
Proof.
  assert (Hempty : lookback <= -2 ->
                   detect_minor_sr_breach [] lookback = Raise IndexError).
  { intros HL. unfold detect_minor_sr_breach. simpl length.
    destruct (Z.ltb_spec (Z.of_nat 0) (lookback + 2)); [lia|].
    now rewrite py_index_empty. }
  assert (Hok : df_h1 <> [] \/ -1 <= lookback ->
                exists res, detect_minor_sr_breach df_h1 lookback = Ok res).
  { intros [Hne | HL].
    - apply detect_minor_sr_breach_ok.
      destruct df_h1; [congruence | simpl; lia].
    - destruct df_h1 as [|b df].
      + unfold detect_minor_sr_breach. simpl length.
        destruct (Z.ltb_spec (Z.of_nat 0) (lookback + 2)); [eauto | lia].
      + apply detect_minor_sr_breach_ok. simpl. lia. }
  split; [|split; assumption].
  intros e He. destruct df_h1 as [|b df].
  - destruct (Z.le_gt_cases lookback (-2)) as [HL|HL].
    + rewrite Hempty in He by assumption. injection He as <-. auto.
    + destruct Hok as [res E]; [right; lia|]. congruence.
  - destruct Hok as [res E]; [left; discriminate|]. congruence.
Qed.

(** X6: when the reference window has no defined high and no defined low --
    as with a lookback of 0, whose window is empty -- the two reference
    levels are undefined and the verdict is "no breach", whatever the newest
    bar. *)
Theorem detect_minor_sr_breach_undefined_window (df_h1 : list bar)
    (lookback : Z) :
  lookback + 2 <= Z.of_nat (length df_h1) ->
  df_h1 <> [] ->
  pd.dropna (map high (py_slice df_h1 (- lookback - 1) (-1))) = [] ->
  pd.dropna (map low (py_slice df_h1 (- lookback - 1) (-1))) = [] ->
  detect_minor_sr_breach df_h1 lookback = Ok (None, None, 0%float).
Proof.
  intros Hn Hne Hh Hl.
  destruct (py_index_last_nonempty df_h1) as (b & _ & Hb).
  { destruct df_h1; [congruence | simpl; lia]. }
  rewrite (detect_minor_sr_breach_long df_h1 lookback b Hn Hb).
  unfold pd.max, pd.min. rewrite Hh, Hl.
  rewrite !mul_nan_l.
  rewrite (ltb_nan nan (high b)) by (left; reflexivity).
  rewrite (ltb_nan (low b) nan) by (right; reflexivity).
  reflexivity.
Qed.

Lemma detect_minor_sr_breach_undefined_window_witness :
  0 + 2 <= Z.of_nat (length wide_last_bar) /\
  wide_last_bar <> [] /\
  detect_minor_sr_breach wide_last_bar 0 = Ok (None, None, 0%float).
Proof.
  split; [vm_compute; discriminate|]. split; [discriminate|].
  apply (detect_minor_sr_breach_undefined_window wide_last_bar 0);
    [vm_compute; discriminate | discriminate | reflexivity | reflexivity].
Defined.

(** X7: the verdict depends on the newest [lookback + 1] bars only: two
    frames that end in the same [lookback + 1] bars, each after at least one
    older bar, get the same verdict. *)
Theorem detect_minor_sr_breach_local (older older' newest : list bar)
    (lookback : Z) :
  0 <= lookback ->
  Z.of_nat (length newest) = lookback + 1 ->
  older <> [] -> older' <> [] ->
  detect_minor_sr_breach (older ++ newest) lookback
  = detect_minor_sr_breach (older' ++ newest) lookback.
Proof.
  intros HL Hlen Hne Hne'.
  assert (Hgen : forall o, o <> [] ->
    detect_minor_sr_breach (o ++ newest) lookback
    = (let* last := py_index newest (-1) in
       let prev_high := pd.max (map high (take (Z.to_nat lookback) newest)) in
       let prev_low := pd.min (map low (take (Z.to_nat lookback) newest)) in
       Ok (if (prev_high * (1 + small_pct) <? high last)%float
           then (Some resistance, Some prev_high, (high last - prev_high)%float)
           else if (low last <? prev_low * (1 - small_pct))%float
                then (Some support, Some prev_low, (prev_low - low last)%float)
                else (None, None, 0%float)))).
  { intros o Ho.
    assert (Lo : (0 < length o)%nat) by (destruct o; [congruence | simpl; lia]).
    destruct (py_index_last_nonempty newest) as (b & Hlast & Hb); [lia|].
    assert (Hb' : py_index (o ++ newest) (-1) = Ok b).
    { apply py_index_last. rewrite last_app, Hlast. reflexivity. }
    rewrite (detect_minor_sr_breach_long (o ++ newest) lookback b)
      by (rewrite ?length_app; (lia || assumption)).
    rewrite Hb. unfold rbind.
    rewrite py_slice_before_last by (rewrite ?length_app; lia).
    rewrite length_app.
    replace (length o + length newest - Z.to_nat lookback - 1)%nat
      with (length o + 0)%nat by lia.
    rewrite drop_app_add, drop_0. reflexivity. }
  now rewrite (Hgen older Hne), (Hgen older' Hne').
Qed.

Lemma detect_minor_sr_breach_local_witness :
  0 <= 2 /\
  detect_minor_sr_breach (quiet_h1 ++ drop 1 wide_last_bar) 2
  = detect_minor_sr_breach (take 1 wide_last_bar ++ drop 1 wide_last_bar) 2.
Proof.
  split; [lia|].
  apply (detect_minor_sr_breach_local quiet_h1 (take 1 wide_last_bar)
           (drop 1 wide_last_bar) 2);
    [lia | reflexivity | discriminate | discriminate].
Defined.

(** ** Fetching *)


(** ** The loop: cadence, invariants, latches *)

Section LoopExtra.
Context `{Lib}.

Lemma cycle_trace_sleeps a sym :
  count_if is_sleep (cycle_trace a sym) = 1%nat /\
  count_if is_h1_fetch (cycle_trace a sym) = 1%nat /\
  Forall (fun e => is_sleep e = true -> e = EvSleep CHECK_INTERVAL)
         (cycle_trace a sym).
Proof.
  unfold cycle_trace, h1_trace, nodata_trace.
  destruct (fetch_ohlc (h1_answer a)) as [df|].
  - destruct (h1_triggered a), (m15_confirmed (m15_answer a)); simpl;
      repeat split; repeat constructor; simpl; (discriminate || reflexivity).
  - simpl. repeat split; repeat constructor; simpl;
      (discriminate || reflexivity).
Qed.

(** The fields a pass leaves, by cases. *)
Lemma monitor_cycle_state a s :
  state_after (monitor_cycle a s) = s \/
  exists df g,
    fetch_ohlc (h1_answer a) = Some df /\ slow_gates df = Ok g /\
    (state_after (monitor_cycle a s) = apply_gates g s \/
     (all_gates g = true /\ m15_confirmed (m15_answer a) = true /\
      state_after (monitor_cycle a s) = confirm (apply_gates g s))).
Proof.
  destruct (monitor_cycle_cases a s) as [[F ->] | (df & g & F & G & ->)].
  - now left.
  - right. exists df, g. split; [assumption|]. split; [assumption|].
    unfold state_after. simpl.
    destruct (all_gates g) eqn:Ea; simpl; [|now left].
    destruct (m15_confirmed (m15_answer a)) eqn:Ec; [|now left].
    right. auto.
Qed.

Lemma checklist_inv_init sym : checklist_inv (monitor_init sym).
Proof. unfold checklist_inv. simpl. repeat split; try reflexivity. now left. Qed.

Lemma checklist_inv_apply_gates g s :
  checklist_inv s -> checklist_inv (apply_gates g s).
Proof.
  intros (_ & _ & _ & E34 & B3 & R).
  unfold checklist_inv, apply_gates. simpl.
  repeat split;
    repeat first [ rewrite lookup_insert_eq; reflexivity
                 | rewrite lookup_insert_ne by lia ];
    assumption.
Qed.

Lemma checklist_inv_confirm s : checklist_inv s -> checklist_inv (confirm s).
Proof.
  intros (V0 & V1 & V2 & _ & _ & R).
  unfold checklist_inv, confirm. simpl.
  rewrite !(lookup_insert_ne _ 4%nat) by lia.
  rewrite !(lookup_insert_ne _ 3%nat 0%nat),
    !(lookup_insert_ne _ 3%nat 1%nat),
    !(lookup_insert_ne _ 3%nat 2%nat) by lia.
  rewrite !lookup_insert_eq.
  repeat split; try assumption. now right.
Qed.

Lemma checklist_inv_cycle a s :
  checklist_inv s -> checklist_inv (state_after (monitor_cycle a s)).
Proof.
  intros Hs.
  destruct (monitor_cycle_state a s)
    as [-> | (df & g & _ & _ & [-> | (_ & _ & ->)])].
  - assumption.
  - now apply checklist_inv_apply_gates.
  - now apply checklist_inv_confirm, checklist_inv_apply_gates.
Qed.

Lemma monitor_loop_state_cons a rest s :
  state_after (monitor_loop (a :: rest) s)
  = state_after (monitor_loop rest (state_after (monitor_cycle a s))).
Proof.
  destruct (monitor_cycle_run a s) as (s' & E & _).
  rewrite (monitor_loop_cons a rest s s' E), E. reflexivity.
Qed.

End LoopExtra.

(** X9: the loop keeps its cadence.  No pass raises; every pass asks the
    terminal for H1 bars once and sleeps once, for [CHECK_INTERVAL] seconds,
    whether bars came or not; and the symbol of the monitor never changes. *)
Theorem monitor_loop_cadence `{Lib} (ans : list answers) (s : monitor) :
  outcome_of (monitor_loop ans s) = Ok tt /\
  count_if is_h1_fetch (trace_of (monitor_loop ans s)) = length ans /\
  count_if is_sleep (trace_of (monitor_loop ans s)) = length ans /\
  Forall (fun e => is_sleep e = true -> e = EvSleep CHECK_INTERVAL)
         (trace_of (monitor_loop ans s)) /\
  symbol (state_after (monitor_loop ans s)) = symbol s.
Proof.
  revert s. induction ans as [|a rest IH]; intros s.
  - repeat split. constructor.
  - destruct (monitor_cycle_run a s) as (s' & E & Hsym & _).
    rewrite (monitor_loop_cons a rest s s' E).
    destruct (IH s') as (O & F & S & A & Y).
    destruct (cycle_trace_sleeps a (symbol s)) as (S1 & F1 & A1).
    unfold outcome_of, trace_of, state_after in *. simpl fst. simpl snd.
    rewrite !count_if_app, F, S, F1, S1.
    repeat split; try assumption.
    + apply Forall_app. split; assumption.
    + congruence.
Qed.

(** X10: on a monitor built by [__init__], after any number of passes, each
    of the first three checkboxes shows the gate it stands for, the last two
    checkboxes are equal and hold 0 or 1, and the field [m15_retrace_ok] is
    still false: no pass writes it. *)
Theorem checklist_invariant `{Lib} (sym : string) (ans : list answers) :
  checklist_inv (state_after (monitor_loop ans (monitor_init sym))).
Proof.
  assert (Hgen : forall s, checklist_inv s ->
                           checklist_inv (state_after (monitor_loop ans s))).
  { induction ans as [|a rest IH]; intros s Hs.
    - exact Hs.
    - rewrite monitor_loop_state_cons. apply IH.
      now apply checklist_inv_cycle. }
  apply Hgen, checklist_inv_init.
Qed.

(** X11: the two fast-stage checkboxes latch: once one of them holds 1, it
    holds 1 after every later pass, whatever the terminal answers. *)
Theorem fast_checkboxes_latch `{Lib} (ans : list answers) (s : monitor)
    (i : nat) :
  i = 3%nat \/ i = 4%nat ->
  vars s !! i = Some 1 ->
  vars (state_after (monitor_loop ans s)) !! i = Some 1.
Proof.
  intros Hi. revert s. induction ans as [|a rest IH]; intros s Hs.
  - exact Hs.
  - rewrite monitor_loop_state_cons. apply IH.
    destruct (monitor_cycle_run a s) as (s' & E & _ & _ & Hvars).
    rewrite E. unfold state_after. simpl.
    rewrite Hvars by lia.
    destruct (h1_triggered a && m15_confirmed (m15_answer a)); [|assumption].
    unfold confirm. simpl.
    destruct Hi as [-> | ->].
    + rewrite lookup_insert_ne by lia. apply lookup_insert_eq.
    + apply lookup_insert_eq.
Qed.

Lemma fast_checkboxes_latch_witness :
  (3%nat = 3%nat \/ 3%nat = 4%nat) /\
  vars (confirm (monitor_init "EURUSD")) !! 3%nat = Some 1 /\
  vars (state_after (monitor_loop [quiet_cycle; nodata_cycle; breakout_cycle]
                       (confirm (monitor_init "EURUSD")))) !! 3%nat = Some 1.
Proof.
  split; [now left|]. split; [reflexivity|].
  apply (fast_checkboxes_latch [quiet_cycle; nodata_cycle; breakout_cycle]
           (confirm (monitor_init "EURUSD")) 3);
    [now left | reflexivity].
Defined.

(** ** What a pass needs in order to fire *)

Lemma time_window_hours (t : Z) :
  time_window (hour_of t) = true <-> in_trading_hours t.
Proof.
  unfold time_window, hour_of, in_trading_hours.
  rewrite orb_true_iff, !andb_true_iff, !Z.leb_le.
  pose proof (Z.mod_pos_bound (t / 3600) 24 ltac:(lia)) as Hh.
  pose proof (Z.mod_pos_bound t 3600 ltac:(lia)) as Hs.
  assert (E : t mod 86400 = 3600 * ((t / 3600) mod 24) + t mod 3600).
  { replace 86400 with (3600 * 24) by lia.
    rewrite Z.rem_mul_r by lia. lia. }
  rewrite E. lia.
Qed.



(** X12: a pass enters the fast stage only on a frame of at least
    [SR_LOOKBACK + 2 = 22] H1 bars whose newest bar opens between 09:00 and
    10:59 or between 14:00 and 17:59; on a shorter frame the breach gate and
    its checkbox are cleared and the pass does nothing but ask and sleep. *)
Theorem pass_needs_bars_and_hours `{Lib} (a : answers) (s : monitor) :
  (h1_triggered a = true ->
   exists df newest,
     h1_answer a = Some df /\
     SR_LOOKBACK + 2 <= Z.of_nat (length df) /\
     last df = Some newest /\
     in_trading_hours (time newest)) /\
  (forall df,
     fetch_ohlc (h1_answer a) = Some df ->
     Z.of_nat (length df) < SR_LOOKBACK + 2 ->
     trace_of (monitor_cycle a s)
     = [EvFetch (symbol s) TIMEFRAME_H1 H1_LOOKBACK; EvSleep CHECK_INTERVAL] /\
     h1_sr_breached (state_after (monitor_cycle a s)) = false /\
     vars (state_after (monitor_cycle a s)) !! 0%nat = Some 0).
Proof.
  split.
  - intros T.
    destruct (h1_triggered_inv a T) as (df & g & F & G & A).
    destruct (all_gates_true g A) as (B & _ & _ & W).
    destruct (fetch_ohlc_Some _ _ F) as [Ha Hn].
    destruct (py_index_last_nonempty df Hn) as (b & Hlast & Hb).
    destruct (slow_gates_inv df g G)
      as (found & out & b' & r & f & _ & _ & Hb' & _ & _ & _ & _ & _ & Hw).
    assert (b' = b) by congruence. subst b'.
    exists df, b. split; [assumption|].
    split; [now apply (gate_breach_needs_bars df g)|].
    split; [assumption|].
    apply time_window_hours. congruence.
  - intros df F Hshort.
    destruct (monitor_cycle_cases a s) as [[F' _] | (df' & g & F' & G & E)];
      [congruence|].
    rewrite F in F'. injection F' as <-.
    assert (B : gate_breach g = false).
    { destruct (gate_breach g) eqn:B; [|reflexivity].
      pose proof (gate_breach_needs_bars df g G B). lia. }
    rewrite E. unfold trace_of, state_after, all_gates. simpl.
    rewrite B. simpl. split; [reflexivity|]. split; [assumption|].
    rewrite !lookup_insert_ne by lia. rewrite lookup_insert_eq.
    now rewrite B.
Qed.

(** X13: the final notification is sound.  When a pass emits it, the pass
    got at least 22 H1 bars and at least [SMA400_PERIOD = 400] M15 bars, it
    has emitted the slow-stage notification, and it leaves the four gates
    true and all five checkboxes at 1. *)
Theorem confirmation_sound `{Lib} (a : answers) (s : monitor) :
  notifications "M15" (trace_of (monitor_cycle a s)) <> 0%nat ->
  exists df_h1 df_m15,
    h1_answer a = Some df_h1 /\
    SR_LOOKBACK + 2 <= Z.of_nat (length df_h1) /\
    m15_answer a = Some df_m15 /\
    SMA400_PERIOD <= Z.of_nat (length df_m15) /\
    notifications "H1" (trace_of (monitor_cycle a s)) = 1%nat /\
    notifications "M15" (trace_of (monitor_cycle a s)) = 1%nat /\
    checklist (state_after (monitor_cycle a s))
    = (true, true, true, true, Some 1, Some 1) /\
    vars (state_after (monitor_cycle a s)) !! 0%nat = Some 1 /\
    vars (state_after (monitor_cycle a s)) !! 1%nat = Some 1 /\
    vars (state_after (monitor_cycle a s)) !! 2%nat = Some 1.
Proof.
  intros Hn.
  destruct (monitor_cycle_run a s) as (s' & E & _).
  rewrite E in Hn. unfold trace_of in Hn. simpl in Hn.
  rewrite cycle_trace_m15_notifications in Hn.
  destruct (h1_triggered a) eqn:T; [|now simpl in Hn].
  destruct (m15_confirmed (m15_answer a)) eqn:C; [|now simpl in Hn].
  destruct (h1_triggered_inv a T) as (df & g & F & G & A).
  destruct (fetch_ohlc_Some _ _ F) as [Ha _].
  destruct (m15_confirmed_needs_bars _ C) as (dm & Hm & Lm).
  destruct (all_gates_true g A) as (B & D & M & W).
  exists df, dm. split; [assumption|].
  split; [now apply (gate_breach_needs_bars df g)|].
  split; [assumption|]. split; [assumption|].
  pose proof (cycle_trace_h1_notifications a (symbol s)) as N1.
  pose proof (cycle_trace_m15_notifications a (symbol s)) as N2.
  rewrite T in N1. rewrite T, C in N2. simpl in N2.
  destruct (monitor_cycle_cases a s) as [[F' _] | (df' & g' & F' & G' & E')];
    [congruence|].
  rewrite F in F'. injection F' as <-.
  rewrite G in G'. injection G' as <-.
  rewrite E in E'. injection E' as -> _.
  rewrite E. unfold trace_of, state_after. simpl.
  rewrite A, C. simpl.
  split; [assumption|]. split; [assumption|].
  unfold checklist, confirm, apply_gates. simpl.
  rewrite B, D, M, W. simpl.
  rewrite !lookup_insert_eq.
  repeat split;
    repeat first [ rewrite lookup_insert_eq; reflexivity
                 | rewrite lookup_insert_ne by lia ].
Qed.

Lemma confirmation_sound_witness :
  notifications "M15"
    (trace_of (monitor_cycle confirming_cycle (monitor_init "EURUSD")))
  <> 0%nat /\
  checklist (state_after (monitor_cycle confirming_cycle (monitor_init "EURUSD")))
  = (true, true, true, true, Some 1, Some 1).
Proof.
  assert (Hn : notifications "M15"
                 (trace_of (monitor_cycle confirming_cycle
                              (monitor_init "EURUSD")))
               <> 0%nat)
    by (vm_compute; discriminate).
  split; [exact Hn|].
  destruct (confirmation_sound confirming_cycle (monitor_init "EURUSD") Hn)
    as (_ & _ & _ & _ & _ & _ & _ & _ & K & _).
  exact K.
Defined.

Lemma pass_needs_bars_and_hours_witness :
  h1_triggered breakout_cycle = true /\
  exists df newest,
    h1_answer breakout_cycle = Some df /\
    SR_LOOKBACK + 2 <= Z.of_nat (length df) /\
    last df = Some newest /\
    in_trading_hours (time newest).
Proof.
  assert (T : h1_triggered breakout_cycle = true) by (vm_compute; reflexivity).
  split; [exact T|].
  exact (proj1 (pass_needs_bars_and_hours breakout_cycle
                  (monitor_init "EURUSD")) T).
Defined.

(** X14: an undefined oscillator or transform value at the newest H1 bar
    clears the divergence gate and its checkbox, and the pass does nothing
    but ask and sleep: comparisons with an undefined value are false.  An
    undefined oscillator value clears the below-midline gate as well. *)
Theorem slow_stage_undefined `{Lib} (a : answers) (s : monitor)
    (df : list bar) (out : list float) :
  fetch_ohlc (h1_answer a) = Some df ->
  fisher_transform (map close df) FISHER_PERIOD = Ok out ->
  last (ta_rsi (map close df) RSI_PERIOD) = Some nan \/ last out = Some nan ->
  h1_left_fisher (state_after (monitor_cycle a s)) = false /\
  vars (state_after (monitor_cycle a s)) !! 1%nat = Some 0 /\
  trace_of (monitor_cycle a s)
  = [EvFetch (symbol s) TIMEFRAME_H1 H1_LOOKBACK; EvSleep CHECK_INTERVAL] /\
  (last (ta_rsi (map close df) RSI_PERIOD) = Some nan ->
   h1_last_close_below_50 (state_after (monitor_cycle a s)) = false).
Proof.
  intros F Hout Hnan.
  destruct (monitor_cycle_cases a s) as [[F' _] | (df' & g & F' & G & E)];
    [congruence|].
  rewrite F in F'. injection F' as <-.
  destruct (slow_gates_inv df g G)
    as (found & out' & b & r & f & _ & Hout' & _ & Hr & Hf & _ & Hd & Hm & _).
  rewrite Hout in Hout'. injection Hout' as <-.
  assert (Hrf : PrimFloat.is_nan r = true \/ PrimFloat.is_nan f = true).
  { destruct Hnan as [L | L]; apply py_index_last in L.
    - left. rewrite L in Hr. now injection Hr as <-.
    - right. rewrite L in Hf. now injection Hf as <-. }
  assert (D : gate_divergence g = false).
  { rewrite Hd, (sub_nan r f Hrf), abs_nan.
    apply leb_nan. now right. }
  rewrite E. unfold trace_of, state_after, all_gates. simpl.
  rewrite D, andb_false_r. simpl.
  split; [assumption|]. split; [|split; [reflexivity|]].
  - rewrite lookup_insert_ne by lia. rewrite lookup_insert_eq.
    now rewrite D.
  - intros L. apply py_index_last in L. rewrite L in Hr. injection Hr as <-.
    rewrite Hm. apply ltb_nan. now left.
Qed.

Lemma slow_stage_undefined_witness :
  fetch_ohlc (h1_answer (Answers (Some two_m15) None)) = Some two_m15 /\
  fisher_transform (map close two_m15) FISHER_PERIOD = Ok [nan; nan] /\
  trace_of (monitor_cycle (Answers (Some two_m15) None) (monitor_init "EURUSD"))
  = [EvFetch "EURUSD" TIMEFRAME_H1 H1_LOOKBACK; EvSleep CHECK_INTERVAL].
Proof.
  split; [reflexivity|]. split; [reflexivity|].
  destruct (slow_stage_undefined (Answers (Some two_m15) None)
              (monitor_init "EURUSD") two_m15 [nan; nan])
    as (_ & _ & T & _); [reflexivity | reflexivity | right; reflexivity |].
  exact T.
Defined.


(** ** Start-up *)

Lemma mt5_connect_facts (account : Z) (password server : string)
    (t : terminal) :
  fst (mt5_connect account password server t) = initialize_ok t /\
  count_if is_login (snd (mt5_connect account password server t))
  = (if initialize_ok t
        && (int_truthy account && str_truthy password && str_truthy server)
     then 1%nat else 0%nat) /\
  count_if is_shutdown (snd (mt5_connect account password server t)) = 0%nat.
Proof.
  unfold mt5_connect.
  destruct (initialize_ok t), (int_truthy account), (str_truthy password),
    (str_truthy server), (login_ok t); simpl; auto.
Qed.

Lemma main_eq (account : Z) (password server : string)
    (symbols : list string) (t : terminal) :
  main account password server symbols t
  = if initialize_ok t
    then (map monitor_init symbols,
          snd (mt5_connect account password server t)
          ++ map SysMonitor symbols ++ [SysMainloop; SysShutdown])
    else ([],
          snd (mt5_connect account password server t)
          ++ [SysPrint "MT5 failed to init. Log into your terminal first."]).
Proof.
  unfold main.
  destruct (mt5_connect_facts account password server t) as (Hc & _).
  destruct (mt5_connect account password server t) as [c tr].
  simpl in *. subst c. now destruct (initialize_ok t).
Qed.

Lemma count_if_monitors (p : sys_event -> bool) (l : list string) :
  (forall x, p (SysMonitor x) = false) ->
  count_if p (map SysMonitor l) = 0%nat.
Proof.
  intros Hp. induction l as [|x l IH]; simpl; [reflexivity|].
  now rewrite Hp, IH.
Qed.

Lemma truthy_credentials (account : Z) (password server : string) :
  int_truthy account && str_truthy password && str_truthy server = true <->
  account <> 0 /\ password <> ""%string /\ server <> ""%string.
Proof.
  unfold int_truthy, str_truthy.
  rewrite !andb_true_iff, !negb_true_iff, Z.eqb_neq, !String.eqb_neq. tauto.
Qed.

(** X16: [main] builds monitors exactly when [mt5.initialize()] succeeds --
    a failed login does not stop it -- one for each configured symbol, in
    order, each with every gate false and every checkbox at 0, and shuts the
    terminal down once, after the GUI loop.  When [initialize] fails it
    builds nothing and does not call shutdown.  A login is attempted only
    when [initialize] succeeded and the account, the password and the server
    are all set; with the shipped configuration it never is. *)
Theorem main_startup (account : Z) (password server : string)
    (symbols : list string) (t : terminal) :
  (initialize_ok t = true ->
   fst (main account password server symbols t) = map monitor_init symbols /\
   map symbol (fst (main account password server symbols t)) = symbols /\
   Forall (fun m => checklist m = (false, false, false, false, Some 0, Some 0)
                    /\ checklist_inv m)
          (fst (main account password server symbols t)) /\
   count_if is_shutdown (snd (main account password server symbols t)) = 1%nat /\
   last (snd (main account password server symbols t)) = Some SysShutdown) /\
  (initialize_ok t = false ->
   fst (main account password server symbols t) = [] /\
   count_if is_shutdown (snd (main account password server symbols t)) = 0%nat /\
   count_if is_login (snd (main account password server symbols t)) = 0%nat) /\
  (count_if is_login (snd (main account password server symbols t)) = 1%nat <->
   initialize_ok t = true /\ account <> 0 /\ password <> ""%string /\
   server <> ""%string) /\
  count_if is_login (snd (main ACCOUNT PASSWORD SERVER symbols t)) = 0%nat.
Proof.
  pose proof (count_if_monitors is_shutdown symbols (fun _ => eq_refl)) as Ms.
  pose proof (count_if_monitors is_login symbols (fun _ => eq_refl)) as Ml.
  assert (Hlogin : forall a p sv,
    count_if is_login (snd (main a p sv symbols t))
    = if initialize_ok t && (int_truthy a && str_truthy p && str_truthy sv)
      then 1%nat else 0%nat).
  { intros a p sv. rewrite main_eq.
    destruct (mt5_connect_facts a p sv t) as (_ & L & _).
    destruct (initialize_ok t); simpl in *;
      rewrite !count_if_app, L, ?Ml; simpl; lia. }
  split; [|split; [|split]].
  - intros I. rewrite main_eq, I. simpl fst. simpl snd.
    destruct (mt5_connect_facts account password server t) as (_ & _ & S).
    split; [reflexivity|].
    split; [rewrite map_map; simpl; apply map_id|].
    split.
    { apply Forall_map, Forall_forall. intros x _.
      split; [reflexivity | apply checklist_inv_init]. }
    split.
    + rewrite !count_if_app, S, Ms. reflexivity.
    + change [SysMainloop; SysShutdown]
        with ([SysMainloop] ++ [SysShutdown]).
      rewrite !app_assoc. apply last_snoc.
  - intros I. split; [now rewrite main_eq, I|].
    split.
    + rewrite main_eq, I. simpl snd.
      destruct (mt5_connect_facts account password server t) as (_ & _ & S).
      rewrite count_if_app, S. reflexivity.
    + rewrite Hlogin, I. reflexivity.
  - rewrite Hlogin. rewrite <- truthy_credentials.
    destruct (initialize_ok t),
      (int_truthy account && str_truthy password && str_truthy server);
      simpl; split; intros; try discriminate; try tauto;
      intuition discriminate.
  - rewrite Hlogin. now rewrite andb_false_r.
Qed.
